(** * TensorBoard notebook utilities: launch reconciliation and instance selection

    A shallow embedding of [tensorboard/notebook.py].  The module talks to
    three collaborators that live outside the file: the process supervisor
    ([manager.start], [manager.get_all]), the clock ([datetime.datetime.now])
    and the display surface ([print], [IPython.display]).  They are modelled
    as an environment of oracles and a state that records every call and
    every piece of output, so that the functions of the module become
    executable state-and-error computations. *)

From Stdlib Require Import ZArith List Bool Lia.
From Stdlib Require Import Strings.String Strings.Ascii Numbers.DecimalString.
Import ListNotations.

Open Scope string_scope.
Open Scope Z_scope.

(** ** Python strings and [%]-formatting

    A Python 3 [str] is modelled by its UTF-8 encoding, one [ascii] per
    byte. *)

Module pystr.

Definition nl : string := String (ascii_of_nat 10) EmptyString.

(** [str(n)] and [%d] for a Python [int]. *)
Definition of_int (n : Z) : string := NilZero.string_of_int (Z.to_int n).

Fixpoint zeros (n : nat) : string :=
  match n with
  | O => EmptyString
  | S k => String "0" (zeros k)
  end.

(** [%0<width>d]: the sign comes first, zeros fill up to [width]. *)
Definition of_int_padded (width : nat) (n : Z) : string :=
  let sign := if n <? 0 then "-" else EmptyString in
  let digits := of_int (Z.abs n) in
  sign ++ zeros (width - String.length sign - String.length digits)%nat ++ digits.

(** The UTF-8 encoding of a code point below U+10000. *)
Definition utf8 (cp : N) : string :=
  let byte n := String (ascii_of_N n) EmptyString in
  if (cp <? 128)%N then byte cp
  else if (cp <? 2048)%N then
    byte (192 + cp / 64)%N ++ byte (128 + cp mod 64)%N
  else
    byte (224 + cp / 4096)%N ++ byte (128 + (cp / 64) mod 64)%N
    ++ byte (128 + cp mod 64)%N.

(** The code points that [str.strip()] removes: the whitespace table of
    Python 3's [str]. *)
Definition whitespace : list N :=
  [9; 10; 11; 12; 13; 28; 29; 30; 31; 32; 133; 160; 5760;
   8192; 8193; 8194; 8195; 8196; 8197; 8198; 8199; 8200; 8201; 8202;
   8232; 8233; 8239; 8287; 12288]%N.

(** Whether [ch] is the encoding of one whitespace character. *)
Definition isspace (ch : string) : bool :=
  existsb (fun cp => String.eqb (utf8 cp) ch) whitespace.

(** A whitespace character takes one, two or three bytes. *)
Fixpoint lstrip (s : string) : string :=
  match s with
  | EmptyString => EmptyString
  | String c1 r1 =>
      if isspace (String c1 EmptyString) then lstrip r1
      else
        match r1 with
        | EmptyString => s
        | String c2 r2 =>
            if isspace (String c1 (String c2 EmptyString)) then lstrip r2
            else
              match r2 with
              | EmptyString => s
              | String c3 r3 =>
                  if isspace (String c1 (String c2 (String c3 EmptyString)))
                  then lstrip r3
                  else s
              end
        end
  end.

(** From the right: a byte goes when all that is kept after it is the
    rest of one whitespace character. *)
Fixpoint rstrip (s : string) : string :=
  match s with
  | EmptyString => EmptyString
  | String c r =>
      let kept := String c (rstrip r) in
      if isspace kept then EmptyString else kept
  end.

Definition strip (s : string) : string := rstrip (lstrip s).

(** Truthiness of a [str]: only the empty string is falsy. *)
Definition truthy (s : string) : bool :=
  match s with
  | EmptyString => false
  | String _ _ => true
  end.

(** [sub in s], decided by trying every position of [s]. *)
Fixpoint contains (sub s : string) : bool :=
  prefix sub s
  || match s with
     | EmptyString => false
     | String _ r => contains sub r
     end.

(** The same as a proposition: [s] splits around an occurrence of [sub]. *)
Definition Includes (sub s : string) : Prop :=
  exists pre post, s = pre ++ sub ++ post.

End pystr.

(** ** [datetime.datetime] and [datetime.timedelta]

    Naive datetimes, as [datetime.datetime.now()] and the supervisor's
    records produce them. *)

Module datetime.

Record datetime : Type := mk {
  year : Z;
  month : Z;
  day : Z;
  hour : Z;
  minute : Z;
  second : Z;
  microsecond : Z
}.

(** [dt.replace(microsecond=us)] *)
Definition replace_microsecond (dt : datetime) (us : Z) : datetime :=
  mk (year dt) (month dt) (day dt) (hour dt) (minute dt) (second dt) us.

Definition _is_leap (y : Z) : bool :=
  (y mod 4 =? 0) && (negb (y mod 100 =? 0) || (y mod 400 =? 0)).

Definition _days_before_year (y : Z) : Z :=
  let y := y - 1 in
  y * 365 + y / 4 - y / 100 + y / 400.

Definition _DAYS_BEFORE_MONTH : list Z :=
  [-1; 0; 31; 59; 90; 120; 151; 181; 212; 243; 273; 304; 334].

Definition _days_before_month (y m : Z) : Z :=
  nth (Z.to_nat m) _DAYS_BEFORE_MONTH 0
  + (if (2 <? m) && _is_leap y then 1 else 0).

Definition _ymd2ord (y m d : Z) : Z :=
  _days_before_year y + _days_before_month y m + d.

Definition toordinal (dt : datetime) : Z :=
  _ymd2ord (year dt) (month dt) (day dt).

(** Comparison of datetimes is comparison of their field tuples. *)
Definition astuple (dt : datetime) : list Z :=
  [year dt; month dt; day dt; hour dt; minute dt; second dt; microsecond dt].

Fixpoint tuple_cmp (a b : list Z) : comparison :=
  match a, b with
  | [], [] => Eq
  | [], _ :: _ => Lt
  | _ :: _, [] => Gt
  | x :: a', y :: b' =>
      match x ?= y with
      | Eq => tuple_cmp a' b'
      | c => c
      end
  end.

Definition cmp (a b : datetime) : comparison :=
  tuple_cmp (astuple a) (astuple b).

(** [a > b] *)
Definition gtb (a b : datetime) : bool :=
  match cmp a b with Gt => true | _ => false end.

(** [a <= b] *)
Definition leb (a b : datetime) : bool := negb (gtb a b).

(** [a < b] *)
Definition ltb (a b : datetime) : bool :=
  match cmp a b with Lt => true | _ => false end.

(** A [timedelta] in its normal form: [0 <= seconds < 86400] and
    [0 <= microseconds < 1000000]; only [days] carries a sign. *)
Record timedelta : Type := mk_delta {
  days : Z;
  seconds : Z;
  microseconds : Z
}.

(** [timedelta(days, seconds, microseconds)] on integers: the carries of
    the constructor, written with Python's floor [divmod]. *)
Definition make_timedelta (d s us : Z) : timedelta :=
  let d := d + s / 86400 in
  let s := s mod 86400 in
  let s2 := us / 1000000 in
  let us := us mod 1000000 in
  let d := d + s2 / 86400 in
  let s := s + s2 mod 86400 in
  let d := d + s / 86400 in
  let s := s mod 86400 in
  mk_delta d s us.

(** [a - b] for two naive datetimes. *)
Definition sub (a b : datetime) : timedelta :=
  let secs1 := second a + minute a * 60 + hour a * 3600 in
  let secs2 := second b + minute b * 60 + hour b * 3600 in
  make_timedelta (toordinal a - toordinal b)
                 (secs1 - secs2)
                 (microsecond a - microsecond b).

(** [str(td)] *)
Definition str (td : timedelta) : string :=
  let mm := seconds td / 60 in
  let ss := seconds td mod 60 in
  let hh := mm / 60 in
  let mm := mm mod 60 in
  let s := pystr.of_int hh ++ ":" ++ pystr.of_int_padded 2 mm
           ++ ":" ++ pystr.of_int_padded 2 ss in
  let s := if days td =? 0 then s
           else pystr.of_int (days td) ++ " day"
                ++ (if Z.abs (days td) =? 1 then EmptyString else "s")
                ++ ", " ++ s in
  if microseconds td =? 0 then s
  else s ++ "." ++ pystr.of_int_padded 6 (microseconds td).

(** Whole seconds since the start of ordinal day 0. *)
Definition whole_seconds (dt : datetime) : Z :=
  toordinal dt * 86400 + hour dt * 3600 + minute dt * 60 + second dt.

End datetime.

(** ** The supervisor's values ([tensorboard.manager]) *)

Module manager.

(** Modelled from the spec: the [TensorboardInfo] record of
    [tensorboard/manager.py], which is not part of the source at hand;
    these are the fields that [notebook.py] reads.  An absent data source
    is the empty string. *)
Record TensorboardInfo : Type := mkInfo {
  port : Z;
  pid : Z;
  start_time : datetime.datetime;
  db : string;
  logdir : string
}.

(** Modelled from the spec: what [manager.start] may hand back.  The four
    result classes of [tensorboard/manager.py], and [Unexpected] for any
    object that is an instance of none of them, kept with its [repr].
    Such an object that is a tuple (say, of a fifth result class) is an
    [UnexpectedTuple], kept with the [repr] of each of its items. *)
Inductive StartResult : Type :=
| StartLaunched (info : TensorboardInfo)
| StartReused (info : TensorboardInfo)
| StartFailed (exit_code : Z) (stdout stderr : option string)
| StartTimedOut (pid : Z)
| Unexpected (repr : string)
| UnexpectedTuple (items : list string).

End manager.

(** ** Effects: exceptions, output and the collaborators *)

Inductive exn : Type :=
| ValueError (msg : string)
| TypeError (msg : string)
| NotImplementedError.

Inductive result (A : Type) : Type :=
| Ok (a : A)
| Raise (e : exn).
Arguments Ok {A} a.
Arguments Raise {A} e.

(** The three values of [_get_context]. *)
Inductive context_kind : Type :=
| _CONTEXT_COLAB
| _CONTEXT_IPYTHON
| _CONTEXT_NONE.

(** What [IPython.display] is asked to show. *)
Inductive DisplayObj : Type :=
| Pretty (text : string)
| IFrame (src : string) (height : Z) (width : string).

(** One user-visible action.  A display handle is the number of the
    display it was returned for. *)
Inductive Event : Type :=
| EvPrint (line : string)
| EvDisplay (obj : DisplayObj) (display_id : option nat)
| EvUpdate (handle : nat) (obj : DisplayObj).

(** The collaborators.  [get_all] and [now] answer by the number of the
    call: nothing promises that two calls in a row see the same files or
    the same instant. *)
Record Env : Type := mkEnv {
  env_context : context_kind;
  env_shlex_split : string -> result (list string);
  env_start : list string -> manager.StartResult;
  env_get_all : nat -> list manager.TensorboardInfo;
  env_now : nat -> datetime.datetime
}.

Record State : Type := mkState {
  get_all_calls : nat;
  now_calls : nat;
  displays : nat;
  out : list Event
}.

Definition M (A : Type) : Type := State -> result A * State.

Definition ret {A : Type} (a : A) : M A := fun st => (Ok a, st).

Definition raise {A : Type} (e : exn) : M A := fun st => (Raise e, st).

Definition bind {A B : Type} (m : M A) (k : A -> M B) : M B :=
  fun st =>
    match m st with
    | (Ok a, st') => k a st'
    | (Raise e, st') => (Raise e, st')
    end.

Notation "x <- m ;; k" := (bind m (fun x => k))
  (at level 61, m at next level, right associativity).
Notation "m ;; k" := (bind m (fun _ => k))
  (at level 61, right associativity).

(** [(before + "%r" + after) % value] when [value] is a tuple: the tuple
    is the argument list of the one conversion, and its items are given
    by their [repr]. *)
Definition percent_r_tuple (before after : string) (items : list string)
  : result string :=
  match items with
  | [] => Raise (TypeError "not enough arguments for format string")
  | [item] => Ok (before ++ item ++ after)
  | _ :: _ :: _ =>
      Raise (TypeError "not all arguments converted during string formatting")
  end.

Definition emit (e : Event) : M unit :=
  fun st => (Ok tt, mkState (get_all_calls st) (now_calls st) (displays st)
                            (out st ++ [e])).

(** [print(line)] *)
Definition print (line : string) : M unit := emit (EvPrint line).

(** [IPython.display.display(obj)] *)
Definition ipython_display (obj : DisplayObj) : M unit :=
  emit (EvDisplay obj None).

(** [IPython.display.display(obj, display_id=True)], which returns a handle. *)
Definition ipython_display_handle (obj : DisplayObj) : M nat :=
  fun st => (Ok (displays st),
             mkState (get_all_calls st) (now_calls st) (S (displays st))
                     (out st ++ [EvDisplay obj (Some (displays st))])).

(** [handle.update(obj)] *)
Definition handle_update (handle : nat) (obj : DisplayObj) : M unit :=
  emit (EvUpdate handle obj).

(** [max(items, key=key)]: the first item whose key no later item exceeds;
    [None] stands for the [ValueError] on an empty sequence. *)
Section PyMax.
Context {A K : Type} (gt : K -> K -> bool) (key : A -> K).

Fixpoint max_from (best : A) (items : list A) : A :=
  match items with
  | [] => best
  | x :: rest => max_from (if gt (key x) (key best) then x else best) rest
  end.

Definition py_max (items : list A) : option A :=
  match items with
  | [] => None
  | x :: rest => Some (max_from x rest)
  end.
End PyMax.

(** The magics of an IPython [InteractiveShell]: kind, name and function,
    the latest registration first. *)
Definition InteractiveShell : Type := list (string * string * (string -> M unit)).

(** The function that the shell runs for a magic of the given kind and
    name, if one is registered. *)
Fixpoint find_magic (ipython : InteractiveShell) (magic_kind magic_name : string)
  : option (string -> M unit) :=
  match ipython with
  | [] => None
  | (k, n, fn) :: rest =>
      if (String.eqb k magic_kind && String.eqb n magic_name)%bool then Some fn
      else find_magic rest magic_kind magic_name
  end.

(** ** [tensorboard/notebook.py] *)

Module notebook.

Import manager.

(** What the imports and the shell query of [_get_context] find: whether
    [IPython] can be imported, what [IPython.get_ipython()] returns ([None],
    or a shell and whether it has the trait "kernel"), and whether
    [google.colab] can be imported. *)
Record Imports : Type := mkImports {
  IPython_importable : bool;
  get_ipython : option bool;
  google_colab_importable : bool
}.

(** The decision of [_get_context] over what its imports find. *)
Definition context_of (found : Imports) : context_kind :=
  if IPython_importable found then
    match get_ipython found with
    | Some true =>
        if google_colab_importable found then _CONTEXT_COLAB
        else _CONTEXT_IPYTHON
    | _ => _CONTEXT_NONE
    end
  else _CONTEXT_NONE.

Section WithEnv.

Variable env : Env.

(** [manager.get_all()] *)
Definition get_all : M (list TensorboardInfo) :=
  fun st => (Ok (env_get_all env (get_all_calls st)),
             mkState (S (get_all_calls st)) (now_calls st) (displays st)
                     (out st)).

(** [datetime.datetime.now()] *)
Definition now : M datetime.datetime :=
  fun st => (Ok (env_now env (now_calls st)),
             mkState (get_all_calls st) (S (now_calls st)) (displays st)
                     (out st)).

(** [shlex.split(args_string, comments=True, posix=True)], which raises
    on an unbalanced quotation. *)
Definition shlex_split (args_string : string) : M (Datatypes.list string) :=
  fun st => (env_shlex_split env args_string, st).

(** [manager.start(parsed_args)] *)
Definition manager_start (parsed_args : Datatypes.list string)
  : M StartResult :=
  ret (env_start env parsed_args).

Definition _get_context : M context_kind := ret (env_context env).

Definition _time_delta_from_info (info : TensorboardInfo)
  : M string :=
  now_ <- now ;;
  let then_ := start_time info in
  ret (datetime.str
         (datetime.sub (datetime.replace_microsecond now_ 0)
                       (datetime.replace_microsecond then_ 0))).

Definition _data_source_from_info (info : TensorboardInfo) : string :=
  if pystr.truthy (db info) then "db " ++ db info
  else "logdir " ++ logdir info.

Definition _display_colab (port height : Z) (display_handle : option nat)
  : M unit :=
  raise NotImplementedError.

Definition _display_ipython (port height : Z)
           (display_handle : option nat) : M unit :=
  let iframe :=
    IFrame ("http://localhost:" ++ pystr.of_int port) height "100%" in
  match display_handle with
  | Some handle => handle_update handle iframe
  | None => ipython_display iframe
  end.

Definition _display_cli (port height : Z) (display_handle : option nat)
  : M unit :=
  let message := "Please navigate to http://localhost:"
                 ++ pystr.of_int port ++ " in a web browser." in
  print message.

(** The selection block of [_display]: from the requested port to the
    chosen record, if any, and the port to render. *)
Definition _display_select (port : option Z)
  : M (option TensorboardInfo * Z) :=
  match port with
  | None =>
      infos <- get_all ;;
      match infos with
      | [] => raise (ValueError
                "Can't display TensorBoard: no known instances running.")
      | _ :: _ =>
          again <- get_all ;;
          match py_max datetime.gtb start_time again with
          | None => raise (ValueError "max() arg is an empty sequence")
          | Some info => ret (Some info, manager.port info)
          end
      end
  | Some port =>
      all <- get_all ;;
      let infos := filter (fun i => manager.port i =? port) all in
      match infos with
      | [] => ret (None, port)
      | _ :: _ =>
          match py_max datetime.gtb start_time infos with
          | None => raise (ValueError "max() arg is an empty sequence")
          | Some info => ret (Some info, port)
          end
      end
  end.

(** The dispatch table of [_display]. *)
Definition _display_fn (context : context_kind)
  : Z -> Z -> option nat -> M unit :=
  match context with
  | _CONTEXT_COLAB => _display_colab
  | _CONTEXT_IPYTHON => _display_ipython
  | _CONTEXT_NONE => _display_cli
  end.

Definition _display (port height : option Z) (print_message : bool)
           (display_handle : option nat) : M unit :=
  let height := match height with None => 600 | Some h => h end in
  sel <- _display_select port ;;
  let '(info, port) := sel in
  (if print_message then
     match info with
     | Some info =>
         let data_source := _data_source_from_info info in
         delta <- _time_delta_from_info info ;;
         print ("Selecting TensorBoard with " ++ data_source
                ++ " (started " ++ delta ++ " ago; port "
                ++ pystr.of_int (manager.port info) ++ ", pid "
                ++ pystr.of_int (pid info) ++ ").")
     | None => ret tt
     end
   else ret tt) ;;
  context <- _get_context ;;
  _display_fn context port height display_handle.

Definition display (port height : option Z) : M unit :=
  _display port height true None.

(** The local [format_stream] of [start]. *)
Definition format_stream (name : string) (value : option string)
  : string :=
  match value with
  | Some EmptyString => EmptyString
  | None => pystr.nl ++ "<could not read " ++ name ++ ">"
  | Some value =>
      pystr.nl ++ "Contents of " ++ name ++ ":" ++ pystr.nl
      ++ pystr.strip value
  end.

(** The local [print_or_update] of [start]. *)
Definition print_or_update (handle : option nat) (message : string)
  : M unit :=
  match handle with
  | None => print message
  | Some h => handle_update h (Pretty message)
  end.

Definition start (args_string : string) : M unit :=
  context <- _get_context ;;
  handle <- match context with
            | _CONTEXT_NONE =>
                print "Launching TensorBoard..." ;; ret None
            | _ =>
                h <- ipython_display_handle
                       (Pretty "Launching TensorBoard...") ;;
                ret (Some h)
            end ;;
  parsed_args <- shlex_split args_string ;;
  start_result <- manager_start parsed_args ;;
  match start_result with
  | StartLaunched info =>
      _display (Some (port info)) None false handle
  | StartReused info =>
      delta <- _time_delta_from_info info ;;
      let message :=
        "Reusing TensorBoard on port " ++ pystr.of_int (port info)
        ++ " (pid " ++ pystr.of_int (pid info) ++ "), started "
        ++ delta ++ " ago. (Use '!kill " ++ pystr.of_int (pid info)
        ++ "' to kill it.)" in
      print_or_update handle message ;;
      _display (Some (port info)) None false None
  | StartFailed exit_code stdout stderr =>
      let message :=
        "ERROR: Failed to launch TensorBoard (exited with "
        ++ pystr.of_int exit_code ++ ")."
        ++ format_stream "stderr" stderr
        ++ format_stream "stdout" stdout in
      print_or_update handle message
  | StartTimedOut pid =>
      let message :=
        "ERROR: Timed out waiting for TensorBoard to start. "
        ++ "It may still be running as pid " ++ pystr.of_int pid ++ "."
      in
      print_or_update handle message
  | Unexpected repr =>
      raise (TypeError
               ("Unexpected result from `manager.start`: " ++ repr ++ "."
                ++ pystr.nl
                ++ "This is a TensorBoard bug; please report it."))
  | UnexpectedTuple items =>
      match percent_r_tuple
              "Unexpected result from `manager.start`: "
              ("." ++ pystr.nl
               ++ "This is a TensorBoard bug; please report it.")
              items with
      | Ok message => raise (TypeError message)
      | Raise e => raise e
      end
  end.

Definition _start_magic (line : string) : M unit := start line.

(** [ipython.register_magic_function(fn, magic_kind, magic_name)]: the
    shell keeps its magics by kind and name, a later registration
    replacing an earlier one under the same kind and name. *)
Definition register_magic_function (ipython : InteractiveShell)
           (fn : string -> M unit) (magic_kind magic_name : string)
  : InteractiveShell :=
  (magic_kind, magic_name, fn) :: ipython.

Definition _register_magics (ipython : InteractiveShell)
  : InteractiveShell :=
  register_magic_function ipython _start_magic "line" "tensorboard".

Definition load_ipython_extension (ipython : InteractiveShell)
  : InteractiveShell :=
  _register_magics ipython.

(** The loop body of [list]. *)
Fixpoint list_lines (infos : Datatypes.list TensorboardInfo) : M unit :=
  match infos with
  | [] => ret tt
  | info :: rest =>
      let data_source := _data_source_from_info info in
      delta <- _time_delta_from_info info ;;
      print ("  - port " ++ pystr.of_int (port info) ++ ": "
             ++ data_source ++ " (started " ++ delta ++ " ago; pid "
             ++ pystr.of_int (pid info) ++ ")") ;;
      list_lines rest
  end.

Definition list : M unit :=
  infos <- get_all ;;
  match infos with
  | [] => print "No known TensorBoard instances running."
  | _ :: _ =>
      print "Known TensorBoard instances:" ;;
      list_lines infos
  end.

End WithEnv.

End notebook.

(** ** Vocabulary of the statements *)

(** The handle that [start] holds after announcing the launch, the event
    of the announcement, and the number of displays after it. *)
Definition banner_handle (env : Env) (st : State) : option nat :=
  match env_context env with
  | _CONTEXT_NONE => None
  | _ => Some (displays st)
  end.

Definition banner_event (env : Env) (st : State) : Event :=
  match env_context env with
  | _CONTEXT_NONE => EvPrint "Launching TensorBoard..."
  | _ => EvDisplay (Pretty "Launching TensorBoard...") (Some (displays st))
  end.

Definition displays_after_banner (env : Env) (st : State) : nat :=
  match env_context env with
  | _CONTEXT_NONE => displays st
  | _ => S (displays st)
  end.

(** The state in which [start] finds itself once the launch is announced. *)
Definition announced (env : Env) (st : State) : State :=
  mkState (get_all_calls st) (now_calls st) (displays_after_banner env st)
          (out st ++ [banner_event env st]).

(** A status message: printed, or written into the announcement's display. *)
Definition status_event (handle : option nat) (message : string) : Event :=
  match handle with
  | None => EvPrint message
  | Some h => EvUpdate h (Pretty message)
  end.

(** The events by which a server is rendered: the printed address, or a
    frame shown or written into a display. *)
Definition is_render_event (ev : Event) : bool :=
  match ev with
  | EvPrint line => prefix "Please navigate to http://localhost:" line
  | EvDisplay (IFrame _ _ _) _ => true
  | EvUpdate _ (IFrame _ _ _) => true
  | _ => false
  end.

Definition height_or_default (height : option Z) : Z :=
  match height with None => 600 | Some h => h end.

(** The elapsed time between two instants, as [_time_delta_from_info]
    words it. *)
Definition elapsed (now_ then_ : datetime.datetime) : string :=
  datetime.str (datetime.sub (datetime.replace_microsecond now_ 0)
                             (datetime.replace_microsecond then_ 0)).

(** What a display shows after a run of events: the object of the last
    event that wrote into it. *)
Fixpoint handle_content (h : nat) (events : list Event)
         (current : option DisplayObj) : option DisplayObj :=
  match events with
  | [] => current
  | EvDisplay obj (Some id) :: rest =>
      handle_content h rest (if Nat.eqb id h then Some obj else current)
  | EvUpdate id obj :: rest =>
      handle_content h rest (if Nat.eqb id h then Some obj else current)
  | _ :: rest => handle_content h rest current
  end.

(** From [st] to [st'] lines were printed and nothing else was shown. *)
Definition only_prints (st st' : State) : Prop :=
  displays st' = displays st
  /\ exists written,
       out st' = (out st ++ written)%list
       /\ forallb (fun ev => match ev with EvPrint _ => true | _ => false end)
                  written = true.

(** The line of [list] for one record, with the clock reading [now_]. *)
Definition listing_line (now_ : datetime.datetime)
           (info : manager.TensorboardInfo) : string :=
  "  - port " ++ pystr.of_int (manager.port info) ++ ": "
  ++ notebook._data_source_from_info info ++ " (started "
  ++ elapsed now_ (manager.start_time info) ++ " ago; pid "
  ++ pystr.of_int (manager.pid info) ++ ")".

(** The line by which [_display] says which instance it selected. *)
Definition selecting_line (now_ : datetime.datetime)
           (info : manager.TensorboardInfo) : string :=
  "Selecting TensorBoard with " ++ notebook._data_source_from_info info
  ++ " (started " ++ elapsed now_ (manager.start_time info)
  ++ " ago; port " ++ pystr.of_int (manager.port info) ++ ", pid "
  ++ pystr.of_int (manager.pid info) ++ ").".

(** The status line of [start] for a reused instance. *)
Definition reusing_line (now_ : datetime.datetime)
           (info : manager.TensorboardInfo) : string :=
  "Reusing TensorBoard on port " ++ pystr.of_int (manager.port info)
  ++ " (pid " ++ pystr.of_int (manager.pid info) ++ "), started "
  ++ elapsed now_ (manager.start_time info) ++ " ago. (Use '!kill "
  ++ pystr.of_int (manager.pid info) ++ "' to kill it.)".

(** The error lines of [start] for a failed launch and for a timeout. *)
Definition failed_line (exit_code : Z) (stdout stderr : option string)
  : string :=
  "ERROR: Failed to launch TensorBoard (exited with "
  ++ pystr.of_int exit_code ++ ")."
  ++ notebook.format_stream "stderr" stderr
  ++ notebook.format_stream "stdout" stdout.

Definition timed_out_line (pid : Z) : string :=
  "ERROR: Timed out waiting for TensorBoard to start. "
  ++ "It may still be running as pid " ++ pystr.of_int pid ++ ".".

(** The address that the renderers point at. *)
Definition url (port : Z) : string := "http://localhost:" ++ pystr.of_int port.

(** [H:MM:SS] for a number of seconds within a day. *)
Definition clock_time (s : Z) : string :=
  pystr.of_int (s / 3600) ++ ":" ++ pystr.of_int_padded 2 (s / 60 mod 60)
  ++ ":" ++ pystr.of_int_padded 2 (s mod 60).

(** The string made of the given characters. *)
Definition join (chars : list string) : string :=
  fold_right append EmptyString chars.

(** ** Sample data *)

Definition st0 : State := mkState 0 0 0 [].

Definition t_old : datetime.datetime := datetime.mk 2019 3 8 11 11 2 0.
Definition t_mid : datetime.datetime := datetime.mk 2019 3 9 23 59 59 999999.
Definition t_new : datetime.datetime := datetime.mk 2019 3 10 9 30 0 0.
Definition t_now : datetime.datetime := datetime.mk 2019 3 10 12 0 0 0.

Definition info_old : manager.TensorboardInfo :=
  manager.mkInfo 6006 4242 t_old EmptyString "/tmp/logs".
Definition info_mid : manager.TensorboardInfo :=
  manager.mkInfo 6007 4300 t_mid "sqlite:~/tb.db" EmptyString.
Definition info_new : manager.TensorboardInfo :=
  manager.mkInfo 6006 5151 t_new EmptyString "/tmp/other".

(** A terminal session in which every discovery query sees [infos] and
    every launch gives [outcome]. *)
Definition sample_env (context : context_kind)
           (outcome : manager.StartResult)
           (infos : list manager.TensorboardInfo) : Env :=
  mkEnv context
        (fun _ => Ok ["--logdir"; "/tmp/logs"])
        (fun _ => outcome)
        (fun _ => infos)
        (fun _ => t_now).

(** A session in which the records vanish between two discovery queries. *)
Definition vanishing_env : Env :=
  mkEnv _CONTEXT_NONE
        (fun _ => Ok [])
        (fun _ => manager.Unexpected "None")
        (fun n => match n with O => [info_old] | S _ => [] end)
        (fun _ => t_now).

(** * Properties *)

(** ** Formatting *)

Example formatting_examples :
  datetime.str (datetime.mk_delta 2 2938 0) = "2 days, 0:48:58"
  /\ datetime.str (datetime.mk_delta (-1) 86399 0) = "-1 day, 23:59:59"
  /\ datetime.str (datetime.mk_delta 0 3661 5) = "1:01:01.000005"
  /\ datetime.toordinal (datetime.mk 2019 3 10 0 0 0 0) = 737128
  /\ pystr.strip (" a b " ++ pystr.nl) = "a b"
  /\ pystr.contains "b c" "a b c d" = true.
Proof. repeat split; vm_compute; reflexivity. Qed.

Lemma toordinal_replace_microsecond dt us :
  datetime.toordinal (datetime.replace_microsecond dt us)
  = datetime.toordinal dt.
Proof. reflexivity. Qed.

(** A difference without microseconds is the whole-second difference, split
    into days and seconds of the day. *)
Lemma sub_whole_seconds a b :
  datetime.sub (datetime.replace_microsecond a 0)
               (datetime.replace_microsecond b 0)
  = let d := datetime.whole_seconds a - datetime.whole_seconds b in
    datetime.mk_delta (d / 86400) (d mod 86400) 0.
Proof.
  unfold datetime.sub, datetime.make_timedelta, datetime.whole_seconds.
  rewrite !toordinal_replace_microsecond. cbn [datetime.replace_microsecond
    datetime.second datetime.minute datetime.hour datetime.microsecond].
  set (D := datetime.toordinal a - datetime.toordinal b).
  set (S := datetime.second a + datetime.minute a * 60 + datetime.hour a * 3600
            - (datetime.second b + datetime.minute b * 60
               + datetime.hour b * 3600)).
  replace (datetime.toordinal a * 86400 + datetime.hour a * 3600
           + datetime.minute a * 60 + datetime.second a
           - (datetime.toordinal b * 86400 + datetime.hour b * 3600
              + datetime.minute b * 60 + datetime.second b))
    with (S + D * 86400) by (subst D S; ring).
  change (0 - 0) with 0.
  change (0 / 1000000) with 0. change (0 mod 1000000) with 0.
  change (0 / 86400) with 0. change (0 mod 86400) with 0.
  rewrite Z.div_add by lia. rewrite Z.mod_add by lia.
  assert (Hs : 0 <= S mod 86400 < 86400) by (apply Z.mod_pos_bound; lia).
  rewrite !Z.add_0_r.
  rewrite (Z.div_small (S mod 86400)) by lia.
  rewrite (Z.mod_small (S mod 86400)) by lia.
  cbv zeta. f_equal. lia.
Qed.

(** C7: the elapsed time is computed from the two instants cut down to whole
    seconds: whatever the microseconds of [now] and of [start_time], the
    result is the rendering of the whole-second difference, without a
    fractional part.  A start 2 days, 48 minutes and 58 seconds before [now]
    renders as "2 days, 0:48:58".  Cutting the operands is not cutting the
    result: from 9.9 s to 10.2 s the true difference is 0.3 s, and the
    function answers one second. *)
Theorem time_delta_truncates_operands :
  (forall env st info,
      let d := datetime.whole_seconds (env_now env (now_calls st))
               - datetime.whole_seconds (manager.start_time info) in
      notebook._time_delta_from_info env info st
      = (Ok (datetime.str (datetime.mk_delta (d / 86400) (d mod 86400) 0)),
         mkState (get_all_calls st) (S (now_calls st)) (displays st)
                 (out st)))
  /\ (forall env st info,
         datetime.microsecond (env_now env (now_calls st)) = 0 ->
         datetime.microsecond (manager.start_time info) = 0 ->
         datetime.whole_seconds (env_now env (now_calls st))
         - datetime.whole_seconds (manager.start_time info)
         = 2 * 86400 + 48 * 60 + 58 ->
         fst (notebook._time_delta_from_info env info st)
         = Ok "2 days, 0:48:58")
  /\ (let now_ := datetime.mk 2019 3 10 12 0 10 200000 in
      let then_ := datetime.mk 2019 3 10 12 0 9 900000 in
      forall env st p i d l,
        env_now env (now_calls st) = now_ ->
        datetime.sub now_ then_ = datetime.mk_delta 0 0 300000
        /\ fst (notebook._time_delta_from_info
                  env (manager.mkInfo p i then_ d l) st)
           = Ok "0:00:01").
Proof.
  assert (H : forall env st info,
      notebook._time_delta_from_info env info st
      = (Ok (datetime.str
               (datetime.sub
                  (datetime.replace_microsecond
                     (env_now env (now_calls st)) 0)
                  (datetime.replace_microsecond
                     (manager.start_time info) 0))),
         mkState (get_all_calls st) (S (now_calls st)) (displays st)
                 (out st))) by reflexivity.
  split; [|split].
  - intros env st info d. rewrite H, sub_whole_seconds. reflexivity.
  - intros env st info _ _ Hd. rewrite H, sub_whole_seconds.
    cbv zeta. rewrite Hd. reflexivity.
  - intros now_ then_ env st p i d l Hnow. split; [reflexivity|].
    rewrite H, Hnow. reflexivity.
Qed.

Lemma time_delta_truncates_operands_witness :
  fst (notebook._time_delta_from_info
         (sample_env _CONTEXT_NONE (manager.StartReused info_old) [info_old])
         info_old st0)
  = Ok "2 days, 0:48:58".
Proof.
  apply (proj1 (proj2 time_delta_truncates_operands)); reflexivity.
Defined.

(** C8: the data source is "db " followed by the connection string when
    the record has one, and "logdir " followed by the path otherwise. *)
Theorem data_source_formatting :
  (forall info,
      pystr.truthy (manager.db info) = true ->
      notebook._data_source_from_info info = "db " ++ manager.db info)
  /\ (forall info,
         pystr.truthy (manager.db info) = false ->
         notebook._data_source_from_info info
         = "logdir " ++ manager.logdir info)
  /\ (forall p i t,
         notebook._data_source_from_info
           (manager.mkInfo p i t EmptyString "/tmp/logs")
         = "logdir /tmp/logs")
  /\ (forall p i t l,
         notebook._data_source_from_info
           (manager.mkInfo p i t "conn-str" l)
         = "db conn-str").
Proof.
  unfold notebook._data_source_from_info.
  repeat split; intros; try reflexivity.
  - rewrite H. reflexivity.
  - rewrite H. reflexivity.
Qed.

Lemma data_source_formatting_witness :
  notebook._data_source_from_info
    (manager.mkInfo 6006 4242 (datetime.mk 2019 3 8 11 11 2 0)
                    "sqlite:~/tb.db" EmptyString)
  = "db sqlite:~/tb.db"
  /\ notebook._data_source_from_info
       (manager.mkInfo 6006 4242 (datetime.mk 2019 3 8 11 11 2 0)
                       EmptyString "/var/log/run1")
     = "logdir /var/log/run1".
Proof.
  split.
  - apply (proj1 data_source_formatting); reflexivity.
  - apply (proj1 (proj2 data_source_formatting)); reflexivity.
Defined.

(** ** The order on datetimes and [max] *)

Lemma tuple_cmp_antisym a : forall b,
  datetime.tuple_cmp b a = CompOpp (datetime.tuple_cmp a b).
Proof.
  induction a as [|x a IH]; intros [|y b]; simpl; try reflexivity.
  rewrite (Z.compare_antisym x y).
  destruct (x ?= y); simpl; auto.
Qed.

Lemma tuple_cmp_le_trans a : forall b c,
  datetime.tuple_cmp a b <> Gt ->
  datetime.tuple_cmp b c <> Gt ->
  datetime.tuple_cmp a c <> Gt.
Proof.
  induction a as [|x a IH]; intros [|y b] [|z c]; simpl; try congruence.
  destruct (Z.compare_spec x y), (Z.compare_spec y z); subst;
    try congruence; intros Hab Hbc.
  - rewrite Z.compare_refl. eauto.
  - destruct (Z.compare_spec y z); try lia; congruence.
  - destruct (Z.compare_spec x z); try lia; congruence.
  - destruct (Z.compare_spec x z); try lia; congruence.
Qed.

Lemma gtb_asym a b : datetime.gtb a b = true -> datetime.gtb b a = false.
Proof.
  unfold datetime.gtb, datetime.cmp.
  rewrite (tuple_cmp_antisym (datetime.astuple a) (datetime.astuple b)).
  destruct (datetime.tuple_cmp _ _); simpl; congruence.
Qed.

Lemma gtb_le_trans a b c :
  datetime.gtb a b = false -> datetime.gtb b c = false ->
  datetime.gtb a c = false.
Proof.
  unfold datetime.gtb, datetime.cmp. intros Hab Hbc.
  pose proof (tuple_cmp_le_trans (datetime.astuple a) (datetime.astuple b)
                                 (datetime.astuple c)) as H.
  destruct (datetime.tuple_cmp (datetime.astuple a) (datetime.astuple b));
    destruct (datetime.tuple_cmp (datetime.astuple b) (datetime.astuple c));
    destruct (datetime.tuple_cmp (datetime.astuple a) (datetime.astuple c));
    try reflexivity; try discriminate; exfalso; apply H; congruence.
Qed.

Lemma leb_refl a : datetime.leb a a = true.
Proof.
  unfold datetime.leb. destruct (datetime.gtb a a) eqn:E; [|reflexivity].
  pose proof (gtb_asym _ _ E). congruence.
Qed.

Section PyMaxFacts.
Context {A K : Type} (gt : K -> K -> bool) (key : A -> K).
Hypothesis gt_asym : forall a b, gt a b = true -> gt b a = false.
Hypothesis le_trans :
  forall a b c, gt a b = false -> gt b c = false -> gt a c = false.

(** The running maximum is one of the items seen, is below no item, and
    when it is not the initial one it strictly exceeds everything before
    its position. *)
Lemma max_from_spec items : forall best,
  let m := max_from gt key best items in
  gt (key best) (key m) = false
  /\ (forall x, In x items -> gt (key x) (key m) = false)
  /\ ((m = best /\ forall x, In x items -> gt (key x) (key best) = false)
      \/ exists pre post,
           items = (pre ++ m :: post)%list
           /\ gt (key m) (key best) = true
           /\ forall x, In x pre -> gt (key m) (key x) = true).
Proof.
  induction items as [|x rest IH]; intros best; simpl.
  - repeat split.
    + destruct (gt (key best) (key best)) eqn:E; auto.
      rewrite (gt_asym _ _ E) in E. discriminate.
    + contradiction.
    + left. split; [reflexivity | contradiction].
  - destruct (gt (key x) (key best)) eqn:Hx.
    + destruct (IH x) as (Hb & Hall & Hfirst).
      repeat split.
      * eapply le_trans; [apply gt_asym; exact Hx | exact Hb].
      * intros y [<-|Hy]; auto.
      * right. destruct Hfirst as [[Hm _] | (pre & post & Hl & Hgt & Hpre)].
        -- exists [], rest. rewrite Hm. simpl.
           repeat split; auto; contradiction.
        -- exists (x :: pre), post. rewrite Hl at 1. simpl.
           repeat split.
           ++ destruct (gt (key (max_from gt key x rest)) (key best))
                eqn:E; auto.
              assert (gt (key x) (key best) = false)
                by (eapply le_trans; eauto).
              congruence.
           ++ intros y [<-|Hy]; auto.
    + destruct (IH best) as (Hb & Hall & Hfirst).
      repeat split; auto.
      * intros y [<-|Hy]; auto. eapply le_trans; eauto.
      * destruct Hfirst as [[Hm Hle] | (pre & post & Hl & Hgt & Hpre)].
        -- left. split; auto. intros y [<-|Hy]; auto.
        -- right. exists (x :: pre), post. rewrite Hl at 1. simpl.
           repeat split; auto.
           intros y [<-|Hy]; auto.
           destruct (gt (key (max_from gt key best rest)) (key x))
             eqn:E; auto.
           assert (gt (key (max_from gt key best rest)) (key best) = false)
             by (eapply le_trans; eauto).
           congruence.
Qed.

(** [max] of a non-empty sequence: a member that no member exceeds, the
    first such in the order of the sequence. *)
Lemma py_max_spec items :
  items <> [] ->
  exists m pre post,
    py_max gt key items = Some m
    /\ items = (pre ++ m :: post)%list
    /\ (forall x, In x items -> gt (key x) (key m) = false)
    /\ (forall x, In x pre -> gt (key m) (key x) = true).
Proof.
  destruct items as [|x rest]; [congruence | intros _]. simpl.
  destruct (max_from_spec rest x) as (Hb & Hall & Hfirst).
  destruct Hfirst as [[Hm Hle] | (pre & post & Hl & Hgt & Hpre)].
  - exists x, [], rest. rewrite Hm in *. simpl.
    repeat split; auto; try contradiction.
    intros y [<-|Hy]; auto.
  - exists (max_from gt key x rest), (x :: pre), post.
    simpl. repeat split; auto.
    + f_equal. exact Hl.
    + intros y [<-|Hy]; auto.
    + intros y [<-|Hy]; auto.
Qed.
End PyMaxFacts.

Lemma gtb_ltb a b : datetime.gtb a b = datetime.ltb b a.
Proof.
  unfold datetime.gtb, datetime.ltb, datetime.cmp.
  rewrite (tuple_cmp_antisym (datetime.astuple a) (datetime.astuple b)).
  destruct (datetime.tuple_cmp _ _); reflexivity.
Qed.

(** [max(..., key=lambda x: x.start_time)] on a non-empty list of records. *)
Lemma most_recent_spec (infos : list manager.TensorboardInfo) :
  infos <> [] ->
  exists info pre post,
    py_max datetime.gtb manager.start_time infos = Some info
    /\ infos = (pre ++ info :: post)%list
    /\ (forall i, In i infos ->
          datetime.leb (manager.start_time i) (manager.start_time info)
          = true)
    /\ (forall i, In i pre ->
          datetime.ltb (manager.start_time i) (manager.start_time info)
          = true).
Proof.
  intros Hne.
  destruct (py_max_spec datetime.gtb manager.start_time gtb_asym
                        gtb_le_trans infos Hne)
    as (m & pre & post & Hmax & Hsplit & Hall & Hpre).
  exists m, pre, post. repeat split; auto.
  - intros i Hi. unfold datetime.leb. rewrite (Hall i Hi). reflexivity.
  - intros i Hi. rewrite <- gtb_ltb. auto.
Qed.

(** ** Selection *)

(** C2: out of a non-empty candidate set the record with the greatest
    [start_time] is selected.  Without a port the candidates are all the
    discovered records (seen alike by both discovery queries); with a port
    they are the discovered records on that port.  Among records of equal,
    greatest [start_time] the first in discovery order is selected: every
    candidate before the selected one started strictly earlier. *)
Theorem selection_most_recent :
  (forall env st infos,
      infos <> [] ->
      env_get_all env (get_all_calls st) = infos ->
      env_get_all env (S (get_all_calls st)) = infos ->
      exists info pre post,
        notebook._display_select env None st
        = (Ok (Some info, manager.port info),
           mkState (S (S (get_all_calls st))) (now_calls st) (displays st)
                   (out st))
        /\ infos = (pre ++ info :: post)%list
        /\ (forall i, In i infos ->
              datetime.leb (manager.start_time i) (manager.start_time info)
              = true)
        /\ (forall i, In i pre ->
              datetime.ltb (manager.start_time i) (manager.start_time info)
              = true))
  /\ (forall env st p infos,
         env_get_all env (get_all_calls st) = infos ->
         filter (fun i => manager.port i =? p) infos <> [] ->
         exists info pre post,
           notebook._display_select env (Some p) st
           = (Ok (Some info, p),
              mkState (S (get_all_calls st)) (now_calls st) (displays st)
                      (out st))
           /\ filter (fun i => manager.port i =? p) infos
              = (pre ++ info :: post)%list
           /\ In info infos
           /\ manager.port info = p
           /\ (forall i, In i infos -> manager.port i = p ->
                 datetime.leb (manager.start_time i)
                              (manager.start_time info) = true)
           /\ (forall i, In i pre ->
                 datetime.ltb (manager.start_time i)
                              (manager.start_time info) = true)).
Proof.
  split.
  - intros env st infos Hne H1 H2.
    destruct (most_recent_spec infos Hne)
      as (info & pre & post & Hmax & Hsplit & Hall & Hpre).
    exists info, pre, post. repeat split; auto.
    unfold notebook._display_select, notebook.get_all, bind. rewrite H1.
    destruct infos as [|i0 rest]; [congruence|].
    cbn [get_all_calls now_calls displays out]. rewrite H2, Hmax.
    reflexivity.
  - intros env st p infos H1 Hne.
    destruct (most_recent_spec _ Hne)
      as (info & pre & post & Hmax & Hsplit & Hall & Hpre).
    assert (Hin : In info (filter (fun i => manager.port i =? p) infos))
      by (rewrite Hsplit; apply in_elt).
    apply filter_In in Hin. destruct Hin as [Hin Hport].
    exists info, pre, post. repeat split; auto.
    + unfold notebook._display_select, notebook.get_all, bind. rewrite H1.
      destruct (filter (fun i => manager.port i =? p) infos) as [|i0 rest];
        [congruence|].
      rewrite Hmax. reflexivity.
    + apply Z.eqb_eq. exact Hport.
    + intros i Hi Hp. apply Hall. apply filter_In. split; auto.
      apply Z.eqb_eq. exact Hp.
Qed.

Lemma selection_most_recent_witness :
  (exists info pre post,
      notebook._display_select
        (sample_env _CONTEXT_NONE (manager.Unexpected "None")
                    [info_old; info_new; info_mid]) None st0
      = (Ok (Some info, manager.port info), mkState 2 0 0 [])
      /\ [info_old; info_new; info_mid] = (pre ++ info :: post)%list
      /\ (forall i, In i [info_old; info_new; info_mid] ->
            datetime.leb (manager.start_time i) (manager.start_time info)
            = true)
      /\ (forall i, In i pre ->
            datetime.ltb (manager.start_time i) (manager.start_time info)
            = true))
  /\ (exists info pre post,
         notebook._display_select
           (sample_env _CONTEXT_NONE (manager.Unexpected "None")
                       [info_old; info_new; info_mid]) (Some 6007) st0
         = (Ok (Some info, 6007), mkState 1 0 0 [])
         /\ filter (fun i => manager.port i =? 6007)
                   [info_old; info_new; info_mid]
            = (pre ++ info :: post)%list
         /\ In info [info_old; info_new; info_mid]
         /\ manager.port info = 6007
         /\ (forall i, In i [info_old; info_new; info_mid] ->
               manager.port i = 6007 ->
               datetime.leb (manager.start_time i)
                            (manager.start_time info) = true)
         /\ (forall i, In i pre ->
               datetime.ltb (manager.start_time i)
                            (manager.start_time info) = true)).
Proof.
  split.
  - apply (proj1 selection_most_recent
             (sample_env _CONTEXT_NONE (manager.Unexpected "None")
                         [info_old; info_new; info_mid]) st0
             [info_old; info_new; info_mid]);
      [discriminate | reflexivity | reflexivity].
  - apply (proj2 selection_most_recent
             (sample_env _CONTEXT_NONE (manager.Unexpected "None")
                         [info_old; info_new; info_mid]) st0 6007
             [info_old; info_new; info_mid]);
      [reflexivity | discriminate].
Defined.

Example selection_examples :
  let env := sample_env _CONTEXT_NONE (manager.Unexpected "None")
                        [info_old; info_new; info_mid] in
  fst (notebook._display_select env None st0) = Ok (Some info_new, 6006)
  /\ fst (notebook._display_select env (Some 6006) st0)
     = Ok (Some info_new, 6006)
  /\ fst (notebook._display_select env (Some 6007) st0)
     = Ok (Some info_mid, 6007)
  /\ fst (notebook._display_select env (Some 7000) st0) = Ok (None, 7000)
  /\ py_max datetime.gtb manager.start_time [info_mid; info_old; info_mid]
     = Some info_mid.
Proof. repeat split; vm_compute; reflexivity. Qed.

(** C10: a selection without a port queries discovery twice.  The first
    answer only decides whether to fail with "no known instances"; the
    winner is the [max] over the second answer, which is not checked, so
    that an empty second answer surfaces as the [ValueError] of [max].
    When both queries give the same answer, [max] has an element to work
    on and the selected record belongs to the answer that was checked. *)
Theorem portless_selection_queries_twice :
  forall env st,
    let first := env_get_all env (get_all_calls st) in
    let second := env_get_all env (S (get_all_calls st)) in
    let st' := mkState (S (S (get_all_calls st))) (now_calls st)
                       (displays st) (out st) in
    first <> [] ->
    notebook._display_select env None st
    = (match py_max datetime.gtb manager.start_time second with
       | Some info => Ok (Some info, manager.port info)
       | None => Raise (ValueError "max() arg is an empty sequence")
       end, st')
    /\ (second = [] ->
        notebook._display_select env None st
        = (Raise (ValueError "max() arg is an empty sequence"), st'))
    /\ (second = first ->
        exists info,
          notebook._display_select env None st
          = (Ok (Some info, manager.port info), st')
          /\ In info first).
Proof.
  intros env st first second st' Hne.
  assert (Hsel : notebook._display_select env None st
    = (match py_max datetime.gtb manager.start_time second with
       | Some info => Ok (Some info, manager.port info)
       | None => Raise (ValueError "max() arg is an empty sequence")
       end, st')).
  { unfold notebook._display_select, notebook.get_all, bind.
    fold first. destruct first as [|i0 rest]; [congruence|].
    cbn [get_all_calls now_calls displays out]. fold second.
    destruct (py_max datetime.gtb manager.start_time second); reflexivity. }
  split; [exact Hsel | split].
  - intros Hempty. rewrite Hsel, Hempty. reflexivity.
  - intros Hsame. rewrite Hsel, Hsame.
    destruct (most_recent_spec first Hne)
      as (info & pre & post & Hmax & Hsplit & _).
    exists info. rewrite Hmax. split; [reflexivity|].
    rewrite Hsplit. apply in_elt.
Qed.

Lemma portless_selection_queries_twice_witness :
  (exists info,
      notebook._display_select
        (sample_env _CONTEXT_NONE (manager.Unexpected "None")
                    [info_old; info_mid]) None st0
      = (Ok (Some info, manager.port info), mkState 2 0 0 [])
      /\ In info [info_old; info_mid])
  /\ notebook._display_select vanishing_env None st0
     = (Raise (ValueError "max() arg is an empty sequence"),
        mkState 2 0 0 []).
Proof.
  split.
  - apply (portless_selection_queries_twice
             (sample_env _CONTEXT_NONE (manager.Unexpected "None")
                         [info_old; info_mid]) st0);
      [discriminate | reflexivity].
  - apply (portless_selection_queries_twice vanishing_env st0);
      [discriminate | reflexivity].
Defined.

(** A request for an explicit port never fails in selection and says
    nothing unless asked to: [_display] comes down to one discovery query
    followed by the renderer of the context. *)
Lemma display_select_port env p st :
  exists info,
    notebook._display_select env (Some p) st
    = (Ok (info, p),
       mkState (S (get_all_calls st)) (now_calls st) (displays st) (out st)).
Proof.
  unfold notebook._display_select, notebook.get_all, bind.
  destruct (filter _ _) as [|i0 rest] eqn:Hf.
  - exists None. reflexivity.
  - destruct (most_recent_spec (i0 :: rest)) as (info & _ & _ & Hmax & _);
      [discriminate|].
    exists (Some info). rewrite Hmax. reflexivity.
Qed.

Lemma display_port_silent env p height dh st :
  notebook._display env (Some p) height false dh st
  = notebook._display_fn (env_context env) p (height_or_default height) dh
      (mkState (S (get_all_calls st)) (now_calls st) (displays st) (out st)).
Proof.
  destruct (display_select_port env p st) as (info & Hsel).
  unfold notebook._display, bind at 1. rewrite Hsel. reflexivity.
Qed.

(** C3: an explicit port that no discovered record has selects nothing and
    raises nothing; the renderer of the context is then run on that very
    port, with the given height or 600, and nothing describing an instance
    is written before it.  At a terminal this prints the address, in a
    notebook it shows the frame. *)
Theorem explicit_port_without_record :
  forall env st p height print_message dh,
    filter (fun i => manager.port i =? p)
           (env_get_all env (get_all_calls st)) = [] ->
    let st' := mkState (S (get_all_calls st)) (now_calls st) (displays st)
                       (out st) in
    notebook._display_select env (Some p) st = (Ok (None, p), st')
    /\ notebook._display env (Some p) height print_message dh st
       = notebook._display_fn (env_context env) p
           (height_or_default height) dh st'
    /\ (env_context env = _CONTEXT_NONE ->
        notebook._display env (Some p) height print_message dh st
        = (Ok tt,
           mkState (S (get_all_calls st)) (now_calls st) (displays st)
             (out st ++ [EvPrint ("Please navigate to http://localhost:"
                                  ++ pystr.of_int p
                                  ++ " in a web browser.")])))
    /\ (env_context env = _CONTEXT_IPYTHON ->
        notebook._display env (Some p) height print_message dh st
        = (Ok tt,
           mkState (S (get_all_calls st)) (now_calls st) (displays st)
             (out st
              ++ [let iframe :=
                    IFrame ("http://localhost:" ++ pystr.of_int p)
                           (height_or_default height) "100%" in
                  match dh with
                  | Some h => EvUpdate h iframe
                  | None => EvDisplay iframe None
                  end]))).
Proof.
  intros env st p height print_message dh Hnone st'.
  assert (Hsel : notebook._display_select env (Some p) st
                 = (Ok (None, p), st')).
  { unfold notebook._display_select, notebook.get_all, bind.
    rewrite Hnone. reflexivity. }
  assert (Hdisp : notebook._display env (Some p) height print_message dh st
                  = notebook._display_fn (env_context env) p
                      (height_or_default height) dh st').
  { unfold notebook._display, bind at 1. rewrite Hsel.
    destruct print_message; reflexivity. }
  repeat split; auto.
  - intros Hc. rewrite Hdisp, Hc. reflexivity.
  - intros Hc. rewrite Hdisp, Hc. destruct dh; reflexivity.
Qed.

Lemma explicit_port_without_record_witness :
  notebook._display_select
    (sample_env _CONTEXT_IPYTHON (manager.Unexpected "None")
                [info_old; info_mid]) (Some 7000) st0
  = (Ok (None, 7000), mkState 1 0 0 [])
  /\ notebook.display
       (sample_env _CONTEXT_IPYTHON (manager.Unexpected "None")
                   [info_old; info_mid]) (Some 7000) None st0
     = (Ok tt,
        mkState 1 0 0
          [EvDisplay (IFrame "http://localhost:7000" 600 "100%") None]).
Proof.
  split.
  - apply (explicit_port_without_record
             (sample_env _CONTEXT_IPYTHON (manager.Unexpected "None")
                         [info_old; info_mid]) st0 7000 None true None).
    reflexivity.
  - apply (explicit_port_without_record
             (sample_env _CONTEXT_IPYTHON (manager.Unexpected "None")
                         [info_old; info_mid]) st0 7000 None true None);
      reflexivity.
Defined.

(** C4: with no known instance, a request to display without a port fails
    with the "no known instances" error before anything is written, while
    the listing prints one line saying so, formats no record (the clock is
    not read) and returns. *)
Theorem no_known_instances :
  forall env st,
    env_get_all env (get_all_calls st) = [] ->
    let st' := mkState (S (get_all_calls st)) (now_calls st) (displays st)
                       (out st) in
    (forall height print_message dh,
        notebook._display env None height print_message dh st
        = (Raise (ValueError
             "Can't display TensorBoard: no known instances running."), st'))
    /\ (forall height,
           notebook.display env None height st
           = (Raise (ValueError
                "Can't display TensorBoard: no known instances running."),
              st'))
    /\ notebook.list env st
       = (Ok tt,
          mkState (S (get_all_calls st)) (now_calls st) (displays st)
            (out st ++ [EvPrint "No known TensorBoard instances running."])).
Proof.
  intros env st Hnone st'.
  assert (H : forall height print_message dh,
    notebook._display env None height print_message dh st
    = (Raise (ValueError
         "Can't display TensorBoard: no known instances running."), st')).
  { intros. unfold notebook._display, notebook._display_select,
      notebook.get_all, bind. rewrite Hnone. reflexivity. }
  repeat split; auto.
  - intros. apply H.
  - unfold notebook.list, notebook.get_all, bind. rewrite Hnone.
    reflexivity.
Qed.

Lemma no_known_instances_witness :
  notebook.display
    (sample_env _CONTEXT_NONE (manager.Unexpected "None") []) None None st0
  = (Raise (ValueError
       "Can't display TensorBoard: no known instances running."),
     mkState 1 0 0 [])
  /\ notebook.list
       (sample_env _CONTEXT_NONE (manager.Unexpected "None") []) st0
     = (Ok tt,
        mkState 1 0 0 [EvPrint "No known TensorBoard instances running."]).
Proof.
  split;
    apply (no_known_instances
             (sample_env _CONTEXT_NONE (manager.Unexpected "None") []) st0);
    reflexivity.
Defined.

(** ** Rendering dispatch *)

Lemma display_select_out env port st :
  out (snd (notebook._display_select env port st)) = out st.
Proof.
  unfold notebook._display_select, notebook.get_all, bind.
  destruct port as [p|].
  - destruct (filter _ _); [reflexivity|].
    destruct (py_max _ _ _); reflexivity.
  - destruct (env_get_all env (get_all_calls st)); [reflexivity|].
    cbn [get_all_calls now_calls displays out].
    destruct (py_max _ _ _); reflexivity.
Qed.

(** C9: in the Colab context the renderer raises [NotImplementedError]
    and touches nothing.  Hence [_display] never returns normally there:
    it fails in selection, or with [NotImplementedError] once selection
    has succeeded, and whatever it has written by then is not a rendering
    (no printed address, no frame). *)
Theorem colab_rendering_not_implemented :
  (forall p h dh st,
      notebook._display_colab p h dh st = (Raise NotImplementedError, st))
  /\ (forall env p h dh st,
         env_context env = _CONTEXT_COLAB ->
         notebook._display_fn (env_context env) p h dh st
         = (Raise NotImplementedError, st))
  /\ (forall env port height print_message dh st,
         env_context env = _CONTEXT_COLAB ->
         exists e st' written,
           notebook._display env port height print_message dh st
           = (Raise e, st')
           /\ (forall sel,
                  fst (notebook._display_select env port st) = Ok sel ->
                  e = NotImplementedError)
           /\ out st' = (out st ++ written)%list
           /\ existsb is_render_event written = false).
Proof.
  split; [reflexivity | split].
  - intros env p h dh st Hc. rewrite Hc. reflexivity.
  - intros env port height print_message dh st Hc.
    pose proof (display_select_out env port st) as Hout.
    unfold notebook._display, bind at 1.
    destruct (notebook._display_select env port st) as [[[info p]|e] st1].
    + simpl in Hout.
      destruct print_message; [destruct info as [info|]|].
      * eexists NotImplementedError, _, [_].
        unfold bind, notebook._time_delta_from_info, notebook.now, ret,
          print, emit, notebook._get_context.
        cbn [get_all_calls now_calls displays out]. rewrite Hc.
        split; [reflexivity|]. split; [reflexivity|].
        rewrite Hout. split; reflexivity.
      * exists NotImplementedError, st1, [].
        unfold bind, ret, notebook._get_context. rewrite Hc.
        split; [reflexivity|]. split; [reflexivity|].
        rewrite Hout, app_nil_r. split; reflexivity.
      * exists NotImplementedError, st1, [].
        unfold bind, ret, notebook._get_context. rewrite Hc.
        split; [reflexivity|]. split; [reflexivity|].
        rewrite Hout, app_nil_r. split; reflexivity.
    + simpl in Hout. exists e, st1, [].
      split; [reflexivity|]. split; [simpl; congruence|].
      rewrite Hout, app_nil_r. split; reflexivity.
Qed.

Lemma colab_rendering_not_implemented_witness :
  notebook._display_fn _CONTEXT_COLAB 6006 600 None st0
  = (Raise NotImplementedError, st0)
  /\ exists e st' written,
       notebook._display
         (sample_env _CONTEXT_COLAB (manager.Unexpected "None") [info_old])
         None None true None st0
       = (Raise e, st')
       /\ (forall sel,
              fst (notebook._display_select
                     (sample_env _CONTEXT_COLAB (manager.Unexpected "None")
                                 [info_old]) None st0) = Ok sel ->
              e = NotImplementedError)
       /\ out st' = (out st0 ++ written)%list
       /\ existsb is_render_event written = false.
Proof.
  split.
  - apply (proj1 (proj2 colab_rendering_not_implemented)
             (sample_env _CONTEXT_COLAB (manager.Unexpected "None")
                         [info_old])).
    reflexivity.
  - apply (proj2 (proj2 colab_rendering_not_implemented)
             (sample_env _CONTEXT_COLAB (manager.Unexpected "None")
                         [info_old])).
    reflexivity.
Defined.

Example colab_display_example :
  notebook.display
    (sample_env _CONTEXT_COLAB (manager.Unexpected "None") [info_old])
    None None st0
  = (Raise NotImplementedError,
     mkState 2 1 0
       [EvPrint ("Selecting TensorBoard with logdir /tmp/logs "
                 ++ "(started 2 days, 0:48:58 ago; port 6006, pid 4242).")]).
Proof. vm_compute. reflexivity. Qed.

(** ** Launch reconciliation *)

Lemma append_assoc (a b c : string) : (a ++ b) ++ c = a ++ b ++ c.
Proof. induction a as [|ch a IH]; simpl; [reflexivity | now rewrite IH]. Qed.

Lemma prefix_append (a b : string) : prefix a (a ++ b) = true.
Proof.
  induction a as [|ch a IH]; simpl; [destruct b; reflexivity|].
  destruct (ascii_dec ch ch); [exact IH | congruence].
Qed.

Lemma contains_unfold sub s :
  pystr.contains sub s
  = prefix sub s
    || match s with
       | EmptyString => false
       | String _ r => pystr.contains sub r
       end.
Proof. destruct s; reflexivity. Qed.

(** [contains] finds every occurrence that [Includes] speaks of. *)
Lemma contains_complete sub s :
  pystr.Includes sub s -> pystr.contains sub s = true.
Proof.
  intros (pre & post & ->). induction pre as [|c pre IH].
  - rewrite contains_unfold. change (EmptyString ++ sub ++ post)
      with (sub ++ post). rewrite prefix_append. reflexivity.
  - change ((String c pre ++ sub ++ post))
      with (String c (pre ++ sub ++ post)).
    rewrite contains_unfold, IH. apply orb_true_r.
Qed.

Ltac includes pre post :=
  exists pre, post; rewrite ?append_assoc; reflexivity.

(** [start] up to the case distinction on the supervisor's answer. *)
Lemma start_announces env args parsed st :
  env_shlex_split env args = Ok parsed ->
  notebook.start env args st
  = let handle := banner_handle env st in
    match env_start env parsed with
    | manager.StartLaunched info =>
        notebook._display env (Some (manager.port info)) None false handle
    | manager.StartReused info =>
        delta <- notebook._time_delta_from_info env info ;;
        notebook.print_or_update handle
          ("Reusing TensorBoard on port " ++ pystr.of_int (manager.port info)
           ++ " (pid " ++ pystr.of_int (manager.pid info) ++ "), started "
           ++ delta ++ " ago. (Use '!kill " ++ pystr.of_int (manager.pid info)
           ++ "' to kill it.)") ;;
        notebook._display env (Some (manager.port info)) None false None
    | manager.StartFailed exit_code stdout stderr =>
        notebook.print_or_update handle
          ("ERROR: Failed to launch TensorBoard (exited with "
           ++ pystr.of_int exit_code ++ ")."
           ++ notebook.format_stream "stderr" stderr
           ++ notebook.format_stream "stdout" stdout)
    | manager.StartTimedOut pid =>
        notebook.print_or_update handle
          ("ERROR: Timed out waiting for TensorBoard to start. "
           ++ "It may still be running as pid " ++ pystr.of_int pid ++ ".")
    | manager.Unexpected repr =>
        raise (TypeError
                 ("Unexpected result from `manager.start`: " ++ repr ++ "."
                  ++ pystr.nl
                  ++ "This is a TensorBoard bug; please report it."))
    | manager.UnexpectedTuple items =>
        match percent_r_tuple
                "Unexpected result from `manager.start`: "
                ("." ++ pystr.nl
                 ++ "This is a TensorBoard bug; please report it.")
                items with
        | Ok message => raise (TypeError message)
        | Raise e => raise e
        end
    end (announced env st).
Proof.
  intros Hsplit.
  unfold notebook.start, announced, banner_handle, banner_event,
    displays_after_banner, notebook._get_context, notebook.shlex_split,
    notebook.manager_start.
  unfold bind at 1. unfold ret at 1.
  destruct (env_context env);
    unfold bind, print, emit, ipython_display_handle, ret;
    cbn [get_all_calls now_calls displays out]; rewrite Hsplit;
    destruct (env_start env parsed); reflexivity.
Qed.

(** An answer of the supervisor that is none of the four result classes
    and is not a tuple makes [start] raise a [TypeError] whose message
    shows the value and calls it a TensorBoard bug to be reported.
    Nothing but the announcement of the launch has happened by then: no
    status message, no discovery query, no rendering. *)
Theorem unexpected_result_is_fatal :
  forall env st args parsed repr,
    env_shlex_split env args = Ok parsed ->
    env_start env parsed = manager.Unexpected repr ->
    let message := "Unexpected result from `manager.start`: " ++ repr ++ "."
                   ++ pystr.nl
                   ++ "This is a TensorBoard bug; please report it." in
    notebook.start env args st = (Raise (TypeError message), announced env st)
    /\ pystr.Includes repr message
    /\ pystr.Includes "This is a TensorBoard bug" message.
Proof.
  intros env st args parsed repr Hsplit Hres message.
  rewrite (start_announces env args parsed st Hsplit), Hres.
  split; [reflexivity | split].
  - includes "Unexpected result from `manager.start`: "
             ("." ++ pystr.nl
              ++ "This is a TensorBoard bug; please report it.").
  - includes ("Unexpected result from `manager.start`: " ++ repr ++ "."
              ++ pystr.nl) "; please report it.".
Qed.

Lemma unexpected_result_is_fatal_witness :
  notebook.start
    (sample_env _CONTEXT_IPYTHON (manager.Unexpected "None") [info_old])
    "--logdir /tmp/logs" st0
  = (Raise (TypeError
       ("Unexpected result from `manager.start`: None." ++ pystr.nl
        ++ "This is a TensorBoard bug; please report it.")),
     mkState 0 0 1
       [EvDisplay (Pretty "Launching TensorBoard...") (Some 0%nat)]).
Proof.
  apply (unexpected_result_is_fatal
           (sample_env _CONTEXT_IPYTHON (manager.Unexpected "None")
                       [info_old])
           st0 "--logdir /tmp/logs" ["--logdir"; "/tmp/logs"] "None");
    reflexivity.
Defined.

(** C6 (the code at the failing input): when the answer that is none of
    the four result classes is a tuple of no item or of more than one, for
    instance a record of a fifth result class with two fields, the [%] of
    the error message takes the tuple for its argument list and fails.
    [start] still raises a [TypeError], but it is the bare formatting
    error: its message neither shows the value nor says that this is a
    TensorBoard bug. *)
Theorem unexpected_tuple_is_misreported :
  forall env st args parsed items,
    env_shlex_split env args = Ok parsed ->
    env_start env parsed = manager.UnexpectedTuple items ->
    List.length items <> 1%nat ->
    exists message,
      notebook.start env args st
      = (Raise (TypeError message), announced env st)
      /\ message
         = match items with
           | [] => "not enough arguments for format string"
           | _ :: _ => "not all arguments converted during string formatting"
           end
      /\ ~ pystr.Includes "This is a TensorBoard bug" message
      /\ ~ pystr.Includes "Unexpected result" message.
Proof.
  intros env st args parsed items Hsplit Hres Hlen.
  rewrite (start_announces env args parsed st Hsplit), Hres.
  destruct items as [|item [|item' items]]; cbn in Hlen; [|congruence|];
    eexists; (split; [reflexivity|]); (split; [reflexivity|]);
    split; intros H; apply contains_complete in H; vm_compute in H;
    discriminate.
Qed.

Lemma unexpected_tuple_is_misreported_witness :
  exists message,
    notebook.start
      (sample_env _CONTEXT_NONE
         (manager.UnexpectedTuple
            ["FileNotFoundError(2, 'No such file or directory')";
             "'tensorboard is not on PATH'"]) [])
      "--logdir /tmp/logs" st0
    = (Raise (TypeError message),
       mkState 0 0 0 [EvPrint "Launching TensorBoard..."])
    /\ message = "not all arguments converted during string formatting"
    /\ ~ pystr.Includes "This is a TensorBoard bug" message
    /\ ~ pystr.Includes "Unexpected result" message.
Proof.
  apply (unexpected_tuple_is_misreported
           (sample_env _CONTEXT_NONE
              (manager.UnexpectedTuple
                 ["FileNotFoundError(2, 'No such file or directory')";
                  "'tensorboard is not on PATH'"]) [])
           st0 "--logdir /tmp/logs" ["--logdir"; "/tmp/logs"]
           ["FileNotFoundError(2, 'No such file or directory')";
            "'tensorboard is not on PATH'"]);
    [reflexivity | reflexivity | discriminate].
Defined.

Example unexpected_one_tuple_example :
  fst (notebook.start
         (sample_env _CONTEXT_NONE (manager.UnexpectedTuple ["7"]) [])
         "--logdir /tmp/logs" st0)
  = Raise (TypeError
             ("Unexpected result from `manager.start`: 7." ++ pystr.nl
              ++ "This is a TensorBoard bug; please report it.")).
Proof. vm_compute. reflexivity. Qed.

(** C5: after a failed launch the status message is the error line with
    the exit code, followed by what [format_stream] makes of stderr and of
    stdout: nothing for an empty stream, a line saying that the stream
    could not be read for a missing one, and the stripped contents under a
    heading otherwise.  After a timeout it is the error line naming the
    pid.  In both cases [start] returns after the announcement and this
    one message: the supervisor is not queried again and nothing is
    rendered. *)
Theorem failed_and_timed_out_reactions :
  (forall env st args parsed exit_code stdout stderr,
      env_shlex_split env args = Ok parsed ->
      env_start env parsed = manager.StartFailed exit_code stdout stderr ->
      let message := "ERROR: Failed to launch TensorBoard (exited with "
                     ++ pystr.of_int exit_code ++ ")."
                     ++ notebook.format_stream "stderr" stderr
                     ++ notebook.format_stream "stdout" stdout in
      let status := status_event (banner_handle env st) message in
      notebook.start env args st
      = (Ok tt,
         mkState (get_all_calls st) (now_calls st)
                 (displays_after_banner env st)
                 (out st ++ [banner_event env st; status]))
      /\ pystr.Includes (pystr.of_int exit_code) message
      /\ existsb is_render_event [banner_event env st; status] = false)
  /\ (forall name,
         notebook.format_stream name (Some EmptyString) = EmptyString
         /\ notebook.format_stream name None
            = pystr.nl ++ "<could not read " ++ name ++ ">"
         /\ forall value,
              pystr.truthy value = true ->
              notebook.format_stream name (Some value)
              = pystr.nl ++ "Contents of " ++ name ++ ":" ++ pystr.nl
                ++ pystr.strip value)
  /\ (forall env st args parsed pid,
         env_shlex_split env args = Ok parsed ->
         env_start env parsed = manager.StartTimedOut pid ->
         let message := "ERROR: Timed out waiting for TensorBoard to start. "
                        ++ "It may still be running as pid "
                        ++ pystr.of_int pid ++ "." in
         let status := status_event (banner_handle env st) message in
         notebook.start env args st
         = (Ok tt,
            mkState (get_all_calls st) (now_calls st)
                    (displays_after_banner env st)
                    (out st ++ [banner_event env st; status]))
         /\ existsb is_render_event [banner_event env st; status] = false).
Proof.
  split; [|split].
  - intros env st args parsed exit_code stdout stderr Hsplit Hres
           message status.
    rewrite (start_announces env args parsed st Hsplit), Hres.
    split; [|split].
    + unfold notebook.print_or_update, announced, status, status_event.
      destruct (banner_handle env st); unfold handle_update, print, emit;
        cbn [get_all_calls now_calls displays out];
        rewrite <- app_assoc; reflexivity.
    + includes "ERROR: Failed to launch TensorBoard (exited with "
               (")." ++ notebook.format_stream "stderr" stderr
                ++ notebook.format_stream "stdout" stdout).
    + unfold status, status_event, banner_handle, banner_event.
      destruct (env_context env); reflexivity.
  - intros name. split; [reflexivity | split; [reflexivity|]].
    intros [|c value] Hv; [discriminate | reflexivity].
  - intros env st args parsed pid Hsplit Hres message status.
    rewrite (start_announces env args parsed st Hsplit), Hres.
    split.
    + unfold notebook.print_or_update, announced, status, status_event.
      destruct (banner_handle env st); unfold handle_update, print, emit;
        cbn [get_all_calls now_calls displays out];
        rewrite <- app_assoc; reflexivity.
    + unfold status, status_event, banner_handle, banner_event.
      destruct (env_context env); reflexivity.
Qed.

Lemma failed_and_timed_out_reactions_witness :
  notebook.start
    (sample_env _CONTEXT_NONE
       (manager.StartFailed 1 (Some EmptyString) None) [])
    "--logdir /tmp/logs" st0
  = (Ok tt,
     mkState 0 0 0
       [EvPrint "Launching TensorBoard...";
        EvPrint ("ERROR: Failed to launch TensorBoard (exited with 1)."
                 ++ pystr.nl ++ "<could not read stderr>")])
  /\ notebook.format_stream "stderr" (Some ("  boom " ++ pystr.nl))
     = pystr.nl ++ "Contents of stderr:" ++ pystr.nl ++ "boom"
  /\ notebook.start
       (sample_env _CONTEXT_IPYTHON (manager.StartTimedOut 4242) [])
       "--logdir /tmp/logs" st0
     = (Ok tt,
        mkState 0 0 1
          [EvDisplay (Pretty "Launching TensorBoard...") (Some 0%nat);
           EvUpdate 0
             (Pretty ("ERROR: Timed out waiting for TensorBoard to start. "
                      ++ "It may still be running as pid 4242."))]).
Proof.
  split; [|split].
  - apply (proj1 failed_and_timed_out_reactions
             (sample_env _CONTEXT_NONE
                (manager.StartFailed 1 (Some EmptyString) None) [])
             st0 "--logdir /tmp/logs" ["--logdir"; "/tmp/logs"]
             1 (Some EmptyString) None); reflexivity.
  - apply (proj1 (proj2 failed_and_timed_out_reactions) "stderr").
    reflexivity.
  - apply (proj2 (proj2 failed_and_timed_out_reactions)
             (sample_env _CONTEXT_IPYTHON (manager.StartTimedOut 4242) [])
             st0 "--logdir /tmp/logs" ["--logdir"; "/tmp/logs"] 4242);
      reflexivity.
Defined.

(** C1 (as amended): when the supervisor reuses an instance, [start]
    writes one status message after the announcement, made of the port, the
    pid, the elapsed time since the instance started and the hint
    "Use '!kill <pid>' to kill it", and then renders the instance: one
    discovery query for the port, then the renderer of the context on that
    port with height 600 in a fresh display. *)
Theorem reused_status_line :
  forall env st args parsed info,
    env_shlex_split env args = Ok parsed ->
    env_start env parsed = manager.StartReused info ->
    let delta := elapsed (env_now env (now_calls st))
                         (manager.start_time info) in
    let message :=
      "Reusing TensorBoard on port " ++ pystr.of_int (manager.port info)
      ++ " (pid " ++ pystr.of_int (manager.pid info) ++ "), started "
      ++ delta ++ " ago. (Use '!kill " ++ pystr.of_int (manager.pid info)
      ++ "' to kill it.)" in
    notebook.start env args st
    = notebook._display_fn (env_context env) (manager.port info) 600 None
        (mkState (S (get_all_calls st)) (S (now_calls st))
                 (displays_after_banner env st)
                 (out st ++ [banner_event env st;
                             status_event (banner_handle env st) message]))
    /\ pystr.Includes (pystr.of_int (manager.port info)) message
    /\ pystr.Includes ("pid " ++ pystr.of_int (manager.pid info)) message
    /\ pystr.Includes (delta ++ " ago") message
    /\ pystr.Includes ("'!kill " ++ pystr.of_int (manager.pid info) ++ "'")
                      message.
Proof.
  intros env st args parsed info Hsplit Hres delta message.
  rewrite (start_announces env args parsed st Hsplit), Hres.
  split; [|repeat split].
  - cbv zeta. unfold bind at 1.
    unfold notebook._time_delta_from_info, notebook.now, bind at 1, ret.
    cbn [get_all_calls now_calls displays out announced].
    fold (elapsed (env_now env (now_calls st)) (manager.start_time info)).
    fold delta. fold message.
    unfold bind at 1.
    assert (Hst : notebook.print_or_update (banner_handle env st) message
        (mkState (get_all_calls st) (S (now_calls st))
                 (displays_after_banner env st)
                 (out st ++ [banner_event env st]))
      = (Ok tt,
         mkState (get_all_calls st) (S (now_calls st))
                 (displays_after_banner env st)
                 (out st ++ [banner_event env st;
                             status_event (banner_handle env st) message]))).
    { unfold notebook.print_or_update, status_event.
      destruct (banner_handle env st); unfold handle_update, print, emit;
        cbn [get_all_calls now_calls displays out];
        rewrite <- app_assoc; reflexivity. }
    rewrite Hst. rewrite display_port_silent. reflexivity.
  - includes "Reusing TensorBoard on port "
      (" (pid " ++ pystr.of_int (manager.pid info) ++ "), started "
       ++ delta ++ " ago. (Use '!kill " ++ pystr.of_int (manager.pid info)
       ++ "' to kill it.)").
  - includes ("Reusing TensorBoard on port "
              ++ pystr.of_int (manager.port info) ++ " (")
      ("), started " ++ delta ++ " ago. (Use '!kill "
       ++ pystr.of_int (manager.pid info) ++ "' to kill it.)").
  - includes ("Reusing TensorBoard on port "
              ++ pystr.of_int (manager.port info)
              ++ " (pid " ++ pystr.of_int (manager.pid info) ++ "), started ")
      (". (Use '!kill " ++ pystr.of_int (manager.pid info)
       ++ "' to kill it.)").
  - includes ("Reusing TensorBoard on port "
              ++ pystr.of_int (manager.port info)
              ++ " (pid " ++ pystr.of_int (manager.pid info) ++ "), started "
              ++ delta ++ " ago. (Use ")
      " to kill it.)".
Qed.

Lemma reused_status_line_witness :
  notebook.start
    (sample_env _CONTEXT_IPYTHON (manager.StartReused info_old) [info_old])
    "--logdir /tmp/logs" st0
  = (Ok tt,
     mkState 1 1 1
       [EvDisplay (Pretty "Launching TensorBoard...") (Some 0%nat);
        EvUpdate 0
          (Pretty ("Reusing TensorBoard on port 6006 (pid 4242), "
                   ++ "started 2 days, 0:48:58 ago. "
                   ++ "(Use '!kill 4242' to kill it.)"));
        EvDisplay (IFrame "http://localhost:6006" 600 "100%") None]).
Proof.
  apply (reused_status_line
           (sample_env _CONTEXT_IPYTHON (manager.StartReused info_old)
                       [info_old])
           st0 "--logdir /tmp/logs" ["--logdir"; "/tmp/logs"] info_old);
    reflexivity.
Defined.

(** C1 (as stated) fails: reusing the instance that serves the log
    directory "/tmp/logs", [start] at a terminal prints three lines, the
    announcement, the status line and the address, and none of them
    contains the data source description "logdir /tmp/logs". *)
Lemma reused_status_line_omits_data_source :
  let env := sample_env _CONTEXT_NONE (manager.StartReused info_old)
                        [info_old] in
  let status := "Reusing TensorBoard on port 6006 (pid 4242), "
                ++ "started 2 days, 0:48:58 ago. "
                ++ "(Use '!kill 4242' to kill it.)" in
  notebook.start env "--logdir /tmp/logs" st0
  = (Ok tt,
     mkState 1 1 0
       [EvPrint "Launching TensorBoard...";
        EvPrint status;
        EvPrint "Please navigate to http://localhost:6006 in a web browser."])
  /\ notebook._data_source_from_info info_old = "logdir /tmp/logs"
  /\ ~ pystr.Includes (notebook._data_source_from_info info_old) status
  /\ ~ pystr.Includes (notebook._data_source_from_info info_old)
         "Launching TensorBoard..."
  /\ ~ pystr.Includes (notebook._data_source_from_info info_old)
         "Please navigate to http://localhost:6006 in a web browser.".
Proof.
  cbv zeta. split; [vm_compute; reflexivity|].
  split; [reflexivity|].
  repeat split; intros H; apply contains_complete in H;
    vm_compute in H; discriminate.
Qed.

(** ** The remaining paths, run on the sample data *)

Example launched_example :
  notebook.start
    (sample_env _CONTEXT_IPYTHON (manager.StartLaunched info_new)
                [info_old; info_new])
    "--logdir /tmp/other" st0
  = (Ok tt,
     mkState 1 0 1
       [EvDisplay (Pretty "Launching TensorBoard...") (Some 0%nat);
        EvUpdate 0 (IFrame "http://localhost:6006" 600 "100%")]).
Proof. vm_compute. reflexivity. Qed.

Example display_example :
  notebook.display
    (sample_env _CONTEXT_NONE (manager.Unexpected "None")
                [info_old; info_mid]) None (Some 800) st0
  = (Ok tt,
     mkState 2 1 0
       [EvPrint ("Selecting TensorBoard with db sqlite:~/tb.db "
                 ++ "(started 12:00:01 ago; port 6007, pid 4300).");
        EvPrint "Please navigate to http://localhost:6007 in a web browser."]).
Proof. vm_compute. reflexivity. Qed.

Example list_example :
  notebook.list
    (sample_env _CONTEXT_NONE (manager.Unexpected "None")
                [info_old; info_mid]) st0
  = (Ok tt,
     mkState 1 2 0
       [EvPrint "Known TensorBoard instances:";
        EvPrint ("  - port 6006: logdir /tmp/logs "
                 ++ "(started 2 days, 0:48:58 ago; pid 4242)");
        EvPrint ("  - port 6007: db sqlite:~/tb.db "
                 ++ "(started 12:00:01 ago; pid 4300)")]).
Proof. vm_compute. reflexivity. Qed.

Example shlex_failure_example :
  notebook.start
    (mkEnv _CONTEXT_NONE (fun _ => Raise (ValueError "No closing quotation"))
           (fun _ => manager.StartLaunched info_old) (fun _ => [])
           (fun _ => t_now))
    "--logdir 'oops" st0
  = (Raise (ValueError "No closing quotation"),
     mkState 0 0 0 [EvPrint "Launching TensorBoard..."]).
Proof. vm_compute. reflexivity. Qed.

(** * Further properties of the module *)

(** ** Selection *)

Lemma split_at_two_elements {A : Type} (pre : list A) :
  forall m post pre' m' post',
    (pre ++ m :: post)%list = (pre' ++ m' :: post')%list ->
    (pre = pre' /\ m = m') \/ In m pre' \/ In m' pre.
Proof.
  induction pre as [|x pre IH]; intros m post [|y pre'] m' post' H;
    simpl in H; injection H as Hh Ht.
  - left. split; [reflexivity | exact Hh].
  - right. left. left. symmetry. exact Hh.
  - right. right. left. exact Hh.
  - destruct (IH _ _ _ _ _ Ht) as [[Hp Hm] | [Hin | Hin]].
    + left. split; [congruence | exact Hm].
    + right. left. right. exact Hin.
    + right. right. right. exact Hin.
Qed.

(** A member below which no member lies and before which every member is
    strictly smaller is the one that [max] returns. *)
Lemma most_recent_unique (infos pre post : list manager.TensorboardInfo)
      (info : manager.TensorboardInfo) :
  infos = (pre ++ info :: post)%list ->
  (forall i, In i infos ->
     datetime.gtb (manager.start_time i) (manager.start_time info) = false) ->
  (forall i, In i pre ->
     datetime.gtb (manager.start_time info) (manager.start_time i) = true) ->
  py_max datetime.gtb manager.start_time infos = Some info.
Proof.
  intros Hsplit Hall Hpre.
  destruct (py_max_spec datetime.gtb manager.start_time gtb_asym
                        gtb_le_trans infos)
    as (m & pre' & post' & Hmax & Hsplit' & Hall' & Hpre').
  { rewrite Hsplit. destruct pre; discriminate. }
  rewrite Hmax. f_equal.
  assert (Hm : In m infos) by (rewrite Hsplit'; apply in_elt).
  assert (Hi : In info infos) by (rewrite Hsplit; apply in_elt).
  rewrite Hsplit in Hsplit' at 1.
  destruct (split_at_two_elements _ _ _ _ _ _ Hsplit')
    as [[_ E] | [Hin | Hin]].
  - symmetry. exact E.
  - pose proof (Hpre' _ Hin) as H1. pose proof (Hall _ Hm) as H2. congruence.
  - pose proof (Hpre _ Hin) as H1. pose proof (Hall' _ Hi) as H2. congruence.
Qed.

Lemma most_recent_inv (infos : list manager.TensorboardInfo)
      (info : manager.TensorboardInfo) :
  py_max datetime.gtb manager.start_time infos = Some info ->
  exists pre post,
    infos = (pre ++ info :: post)%list
    /\ (forall i, In i infos ->
          datetime.gtb (manager.start_time i) (manager.start_time info)
          = false)
    /\ (forall i, In i pre ->
          datetime.gtb (manager.start_time info) (manager.start_time i)
          = true).
Proof.
  intros Hmax.
  destruct (py_max_spec datetime.gtb manager.start_time gtb_asym
                        gtb_le_trans infos)
    as (m & pre & post & Hmax' & Hsplit & Hall & Hpre).
  { destruct infos; [discriminate Hmax | discriminate]. }
  rewrite Hmax in Hmax'. injection Hmax' as <-.
  exists pre, post. auto.
Qed.

(** The record that is selected among all is also the one selected among
    the records on its own port. *)
Lemma most_recent_on_own_port (infos : list manager.TensorboardInfo)
      (info : manager.TensorboardInfo) :
  py_max datetime.gtb manager.start_time infos = Some info ->
  py_max datetime.gtb manager.start_time
         (filter (fun i => manager.port i =? manager.port info) infos)
  = Some info.
Proof.
  intros Hmax.
  destruct (most_recent_inv infos info Hmax)
    as (pre & post & Hsplit & Hall & Hpre).
  apply (most_recent_unique _
           (filter (fun i => manager.port i =? manager.port info) pre)
           (filter (fun i => manager.port i =? manager.port info) post)).
  - rewrite Hsplit, filter_app. simpl. rewrite Z.eqb_refl. reflexivity.
  - intros i Hi. apply filter_In in Hi. apply Hall, Hi.
  - intros i Hi. apply filter_In in Hi. apply Hpre, Hi.
Qed.

(** X1: the instance that a request without a port selects is the one
    that a request for that instance's port selects, as long as discovery
    answers alike: [display()] and [display(port)] on the port it rendered
    describe the same record. *)
Theorem portless_and_port_selection_agree :
  forall env st st' infos info p,
    env_get_all env (get_all_calls st) = infos ->
    env_get_all env (S (get_all_calls st)) = infos ->
    env_get_all env (get_all_calls st') = infos ->
    fst (notebook._display_select env None st) = Ok (Some info, p) ->
    fst (notebook._display_select env (Some p) st') = Ok (Some info, p).
Proof.
  intros env st st' infos info p H1 H2 H3.
  unfold notebook._display_select, notebook.get_all, bind.
  rewrite H1, H3. destruct infos as [|i0 rest]; [discriminate|].
  cbn [get_all_calls now_calls displays out]. rewrite H2.
  destruct (py_max datetime.gtb manager.start_time (i0 :: rest))
    as [m|] eqn:Hmax; [|discriminate].
  cbn [fst ret]. intros H. injection H as -> <-.
  rewrite (most_recent_on_own_port _ _ Hmax).
  destruct (filter _ _) eqn:Hf; [|reflexivity].
  pose proof (most_recent_on_own_port _ _ Hmax) as Hm.
  rewrite Hf in Hm. discriminate.
Qed.

Lemma portless_and_port_selection_agree_witness :
  fst (notebook._display_select
         (sample_env _CONTEXT_NONE (manager.Unexpected "None")
                     [info_old; info_new; info_mid]) (Some 6006) st0)
  = Ok (Some info_new, 6006).
Proof.
  apply (portless_and_port_selection_agree
           (sample_env _CONTEXT_NONE (manager.Unexpected "None")
                       [info_old; info_new; info_mid])
           st0 st0 [info_old; info_new; info_mid]);
    reflexivity.
Defined.

(** X2: whenever selection yields a record, the port that goes on to be
    rendered is that record's port: the instance described is the instance
    shown. *)
Theorem selected_record_has_rendered_port :
  forall env port st info p,
    fst (notebook._display_select env port st) = Ok (Some info, p) ->
    manager.port info = p
    /\ match port with Some requested => p = requested | None => True end.
Proof.
  intros env [requested|] st info p;
    unfold notebook._display_select, notebook.get_all, bind.
  - destruct (filter _ _) as [|i0 rest] eqn:Hf; [discriminate|].
    destruct (py_max _ _ _) as [m|] eqn:Hmax; [|discriminate].
    cbn [fst ret]. intros H. injection H as -> <-.
    destruct (most_recent_inv _ _ Hmax) as (pre & post & Hsplit & _).
    assert (Hin : In info (i0 :: rest)) by (rewrite Hsplit; apply in_elt).
    rewrite <- Hf in Hin. apply filter_In in Hin.
    split; [apply Z.eqb_eq, Hin | reflexivity].
  - destruct (env_get_all env (get_all_calls st)); [discriminate|].
    cbn [get_all_calls now_calls displays out].
    destruct (py_max _ _ _) as [m|]; [|discriminate].
    cbn [fst ret]. intros H. injection H as -> <-. auto.
Qed.

Lemma selected_record_has_rendered_port_witness :
  manager.port info_mid = 6007 /\ 6007 = 6007.
Proof.
  apply (selected_record_has_rendered_port
           (sample_env _CONTEXT_NONE (manager.Unexpected "None")
                       [info_old; info_new; info_mid])
           (Some 6007) st0 info_mid 6007).
  reflexivity.
Defined.

(** X3: selection only ever queries discovery.  It writes nothing, does
    not read the clock and opens no display; with a port it queries
    once, without a port once when the answer is empty and twice
    otherwise. *)
Theorem selection_only_queries :
  forall env port st,
    let st' := snd (notebook._display_select env port st) in
    out st' = out st
    /\ now_calls st' = now_calls st
    /\ displays st' = displays st
    /\ get_all_calls st'
       = match port, env_get_all env (get_all_calls st) with
         | None, _ :: _ => S (S (get_all_calls st))
         | _, _ => S (get_all_calls st)
         end.
Proof.
  intros env [p|] st; unfold notebook._display_select, notebook.get_all, bind.
  - destruct (filter _ _).
    + destruct (env_get_all env (get_all_calls st)); repeat split.
    + destruct (py_max _ _ _);
        destruct (env_get_all env (get_all_calls st)); repeat split.
  - destruct (env_get_all env (get_all_calls st)); [repeat split|].
    cbn [get_all_calls now_calls displays out].
    destruct (py_max _ _ _); repeat split.
Qed.

(** ** Display *)

Lemma display_select_clock env port st :
  now_calls (snd (notebook._display_select env port st)) = now_calls st
  /\ displays (snd (notebook._display_select env port st)) = displays st.
Proof.
  unfold notebook._display_select, notebook.get_all, bind.
  destruct port as [p|].
  - destruct (filter _ _); [split; reflexivity|].
    destruct (py_max _ _ _); split; reflexivity.
  - destruct (env_get_all env (get_all_calls st)); [split; reflexivity|].
    cbn [get_all_calls now_calls displays out].
    destruct (py_max _ _ _); split; reflexivity.
Qed.

(** [_display] once selection has found a record and the message is asked
    for. *)
Lemma display_announcing env port height dh st info p st1 :
  notebook._display_select env port st = (Ok (Some info, p), st1) ->
  notebook._display env port height true dh st
  = notebook._display_fn (env_context env) p (height_or_default height) dh
      (mkState (get_all_calls st1) (S (now_calls st1)) (displays st1)
               (out st1
                ++ [EvPrint (selecting_line (env_now env (now_calls st1))
                                            info)])).
Proof.
  intros Hsel. unfold notebook._display, bind at 1. rewrite Hsel.
  reflexivity.
Qed.

(** X4: when [display] finds a record for the request, it prints one line
    before rendering, and that line names the instance's data source, the
    elapsed time since its start, its port and its pid; the renderer then
    runs on the selected port with the given height or 600. *)
Theorem display_announces_selection :
  forall env port height st info p st1,
    notebook._display_select env port st = (Ok (Some info, p), st1) ->
    let line := selecting_line (env_now env (now_calls st)) info in
    notebook.display env port height st
    = notebook._display_fn (env_context env) p (height_or_default height)
        None
        (mkState (get_all_calls st1) (S (now_calls st)) (displays st)
                 (out st ++ [EvPrint line]))
    /\ pystr.Includes (notebook._data_source_from_info info) line
    /\ pystr.Includes (elapsed (env_now env (now_calls st))
                               (manager.start_time info) ++ " ago") line
    /\ pystr.Includes ("port " ++ pystr.of_int (manager.port info)) line
    /\ pystr.Includes ("pid " ++ pystr.of_int (manager.pid info)) line.
Proof.
  intros env port height st info p st1 Hsel line.
  split; [|repeat split].
  - unfold notebook.display.
    rewrite (display_announcing env port height None st info p st1 Hsel).
    pose proof (display_select_out env port st) as Ho.
    pose proof (display_select_clock env port st) as [Hn Hd].
    rewrite Hsel in Ho, Hn, Hd. cbn [snd] in Ho, Hn, Hd.
    rewrite Ho, Hn, Hd. reflexivity.
  - includes "Selecting TensorBoard with "
      (" (started " ++ elapsed (env_now env (now_calls st))
                               (manager.start_time info)
       ++ " ago; port " ++ pystr.of_int (manager.port info) ++ ", pid "
       ++ pystr.of_int (manager.pid info) ++ ").").
  - includes ("Selecting TensorBoard with "
              ++ notebook._data_source_from_info info ++ " (started ")
      ("; port " ++ pystr.of_int (manager.port info) ++ ", pid "
       ++ pystr.of_int (manager.pid info) ++ ").").
  - includes ("Selecting TensorBoard with "
              ++ notebook._data_source_from_info info ++ " (started "
              ++ elapsed (env_now env (now_calls st))
                         (manager.start_time info) ++ " ago; ")
      (", pid " ++ pystr.of_int (manager.pid info) ++ ").").
  - includes ("Selecting TensorBoard with "
              ++ notebook._data_source_from_info info ++ " (started "
              ++ elapsed (env_now env (now_calls st))
                         (manager.start_time info) ++ " ago; port "
              ++ pystr.of_int (manager.port info) ++ ", ")
      ").".
Qed.

Lemma display_announces_selection_witness :
  notebook.display
    (sample_env _CONTEXT_IPYTHON (manager.Unexpected "None")
                [info_old; info_mid]) (Some 6007) (Some 800) st0
  = (Ok tt,
     mkState 1 1 0
       [EvPrint ("Selecting TensorBoard with db sqlite:~/tb.db "
                 ++ "(started 12:00:01 ago; port 6007, pid 4300).");
        EvDisplay (IFrame "http://localhost:6007" 800 "100%") None]).
Proof.
  apply (display_announces_selection
           (sample_env _CONTEXT_IPYTHON (manager.Unexpected "None")
                       [info_old; info_mid])
           (Some 6007) (Some 800) st0 info_mid 6007 (mkState 1 0 0 [])).
  reflexivity.
Defined.

(** X5: outside Colab a request for an explicit port cannot fail: whatever
    discovery answers, [display(port)] returns normally, having rendered
    that port. *)
Theorem display_with_port_succeeds :
  forall env p height st,
    env_context env <> _CONTEXT_COLAB ->
    exists st',
      notebook.display env (Some p) height st = (Ok tt, st')
      /\ exists before,
           out st' = (out st ++ before
                      ++ [match env_context env with
                          | _CONTEXT_NONE =>
                              EvPrint ("Please navigate to http://localhost:"
                                       ++ pystr.of_int p
                                       ++ " in a web browser.")
                          | _ =>
                              EvDisplay
                                (IFrame ("http://localhost:"
                                         ++ pystr.of_int p)
                                        (height_or_default height) "100%")
                                None
                          end])%list.
Proof.
  intros env p height st Hctx.
  destruct (display_select_port env p st) as ([info|] & Hsel).
  - unfold notebook.display.
    rewrite (display_announcing env (Some p) height None st info p _ Hsel).
    cbn [get_all_calls now_calls displays out].
    destruct (env_context env); [congruence| |];
      eexists; (split; [reflexivity|]);
      cbn [out]; eexists [_]; rewrite <- app_assoc; reflexivity.
  - unfold notebook.display, notebook._display, bind at 1. rewrite Hsel.
    destruct (env_context env) eqn:Hc; [congruence| |];
      unfold bind, ret, notebook._get_context; rewrite Hc;
      eexists; (split; [reflexivity|]);
      cbn [out]; exists []; reflexivity.
Qed.

Lemma display_with_port_succeeds_witness :
  exists st',
    notebook.display
      (sample_env _CONTEXT_NONE (manager.Unexpected "None") [])
      (Some 7000) None st0 = (Ok tt, st')
    /\ exists before,
         out st' = (out st0 ++ before
                    ++ [EvPrint ("Please navigate to http://localhost:"
                                 ++ pystr.of_int 7000
                                 ++ " in a web browser.")])%list.
Proof.
  apply (display_with_port_succeeds
           (sample_env _CONTEXT_NONE (manager.Unexpected "None") [])
           7000 None st0).
  discriminate.
Defined.

(** X6: at a terminal neither the height nor a display handle has any
    effect on what [_display] does. *)
Theorem terminal_ignores_height_and_handle :
  forall env port height height' print_message dh dh' st,
    env_context env = _CONTEXT_NONE ->
    notebook._display env port height print_message dh st
    = notebook._display env port height' print_message dh' st.
Proof.
  intros env port height height' print_message dh dh' st Hc.
  unfold notebook._display, bind, notebook._get_context, ret.
  destruct (notebook._display_select env port st) as [[[info p]|e] st1];
    [|reflexivity].
  destruct print_message; [destruct info|]; cbv beta iota;
    unfold notebook._time_delta_from_info, notebook.now, bind, ret, print,
      emit; cbn [get_all_calls now_calls displays out];
    rewrite Hc; reflexivity.
Qed.

Lemma terminal_ignores_height_and_handle_witness :
  notebook._display
    (sample_env _CONTEXT_NONE (manager.Unexpected "None") [info_old])
    None None true None st0
  = notebook._display
      (sample_env _CONTEXT_NONE (manager.Unexpected "None") [info_old])
      None (Some 1200) true (Some 3%nat) st0.
Proof.
  apply (terminal_ignores_height_and_handle
           (sample_env _CONTEXT_NONE (manager.Unexpected "None") [info_old])).
  reflexivity.
Defined.

(** ** Listing *)

Lemma list_lines_spec env infos : forall st,
  notebook.list_lines env infos st
  = (Ok tt,
     mkState (get_all_calls st) (now_calls st + List.length infos)%nat
             (displays st)
             (out st
              ++ map (fun ki => EvPrint (listing_line (env_now env (fst ki))
                                                      (snd ki)))
                     (combine (seq (now_calls st) (List.length infos)) infos))).
Proof.
  induction infos as [|info rest IH]; intros st.
  - simpl. unfold ret. rewrite Nat.add_0_r, app_nil_r.
    destruct st; reflexivity.
  - cbn [notebook.list_lines].
    unfold bind at 1.
    unfold notebook._time_delta_from_info, notebook.now, bind at 1, ret.
    cbn [get_all_calls now_calls displays out].
    unfold bind at 1, print, emit.
    cbn [get_all_calls now_calls displays out].
    rewrite IH. cbn [get_all_calls now_calls displays out List.length seq combine
                     map fst snd].
    rewrite <- app_assoc. simpl. rewrite Nat.add_succ_r. reflexivity.
Qed.

Lemma nth_error_numbered {A B : Type} (f : nat * A -> B) (items : list A) :
  forall n k x,
    nth_error items k = Some x ->
    nth_error (map f (combine (seq n (List.length items)) items)) k
    = Some (f ((n + k)%nat, x)).
Proof.
  induction items as [|y items IH]; intros n [|k] x H; simpl in *;
    try discriminate.
  - injection H as ->. rewrite Nat.add_0_r. reflexivity.
  - rewrite (IH (S n) k x H), Nat.add_succ_r. reflexivity.
Qed.

(** X7: with known instances, [list] prints the heading and then one line
    per record, in discovery order: the line of the [k]-th record carries
    that record's port, data source and pid and the time elapsed at the
    [k]-th reading of the clock.  In every context [list] only prints: it
    opens or updates no display, queries discovery once, and returns
    normally. *)
Theorem list_prints_every_instance :
  forall env st,
    let infos := env_get_all env (get_all_calls st) in
    infos <> [] ->
    exists lines,
      notebook.list env st
      = (Ok tt,
         mkState (S (get_all_calls st)) (now_calls st + List.length infos)%nat
                 (displays st)
                 (out st ++ EvPrint "Known TensorBoard instances:" :: lines))
      /\ List.length lines = List.length infos
      /\ (forall k info,
             nth_error infos k = Some info ->
             nth_error lines k
             = Some (EvPrint (listing_line
                                (env_now env (now_calls st + k)%nat) info))
             /\ pystr.Includes (notebook._data_source_from_info info)
                               (listing_line
                                  (env_now env (now_calls st + k)%nat) info)).
Proof.
  intros env st infos Hne.
  exists (map (fun ki => EvPrint (listing_line (env_now env (fst ki))
                                               (snd ki)))
              (combine (seq (now_calls st) (List.length infos)) infos)).
  split; [|split].
  - unfold notebook.list, notebook.get_all, bind at 1. fold infos.
    destruct infos as [|i0 rest] eqn:E; [congruence|].
    unfold bind at 1, print, emit.
    cbn [get_all_calls now_calls displays out].
    rewrite list_lines_spec.
    cbn [get_all_calls now_calls displays out].
    rewrite <- app_assoc. reflexivity.
  - rewrite length_map, length_combine, length_seq. apply Nat.min_id.
  - intros k info Hk. split.
    + rewrite (nth_error_numbered _ infos (now_calls st) k info Hk).
      reflexivity.
    + includes ("  - port " ++ pystr.of_int (manager.port info) ++ ": ")
        (" (started "
         ++ elapsed (env_now env (now_calls st + k)%nat)
                    (manager.start_time info)
         ++ " ago; pid " ++ pystr.of_int (manager.pid info) ++ ")").
Qed.

Lemma list_prints_every_instance_witness :
  exists lines,
    notebook.list
      (sample_env _CONTEXT_IPYTHON (manager.Unexpected "None")
                  [info_old; info_mid]) st0
    = (Ok tt,
       mkState 1 (0 + 2)%nat 0
               ([] ++ EvPrint "Known TensorBoard instances:" :: lines))
    /\ List.length lines = 2%nat
    /\ (forall k info,
           nth_error [info_old; info_mid] k = Some info ->
           nth_error lines k
           = Some (EvPrint (listing_line t_now info))
           /\ pystr.Includes (notebook._data_source_from_info info)
                             (listing_line t_now info)).
Proof.
  apply (list_prints_every_instance
           (sample_env _CONTEXT_IPYTHON (manager.Unexpected "None")
                       [info_old; info_mid]) st0).
  discriminate.
Defined.

(** ** Sessions without a notebook kernel *)

Lemma only_prints_refl st : only_prints st st.
Proof. split; [reflexivity|]. exists []. rewrite app_nil_r. auto. Qed.

Lemma only_prints_trans st1 st2 st3 :
  only_prints st1 st2 -> only_prints st2 st3 -> only_prints st1 st3.
Proof.
  intros [Hd1 (w1 & Ho1 & Hp1)] [Hd2 (w2 & Ho2 & Hp2)].
  split; [congruence|]. exists (w1 ++ w2)%list.
  rewrite Ho2, Ho1, <- app_assoc, forallb_app, Hp1, Hp2. auto.
Qed.

Lemma only_prints_bind {A B : Type} (m : M A) (k : A -> M B) st :
  only_prints st (snd (m st)) ->
  (forall a st1, m st = (Ok a, st1) -> only_prints st1 (snd (k a st1))) ->
  only_prints st (snd (bind m k st)).
Proof.
  intros Hm Hk. unfold bind. destruct (m st) as [[a|e] st1] eqn:E.
  - eapply only_prints_trans; [exact Hm | apply Hk; reflexivity].
  - exact Hm.
Qed.

Lemma only_prints_print line st : only_prints st (snd (print line st)).
Proof.
  split; [reflexivity|]. exists [EvPrint line]. split; reflexivity.
Qed.

Lemma only_prints_time_delta env info st :
  only_prints st (snd (notebook._time_delta_from_info env info st)).
Proof.
  split; [reflexivity|]. exists []. simpl. rewrite app_nil_r. auto.
Qed.

Lemma only_prints_select env port st :
  only_prints st (snd (notebook._display_select env port st)).
Proof.
  split; [apply display_select_clock|]. exists [].
  rewrite display_select_out, app_nil_r. auto.
Qed.

Lemma only_prints_display env port height print_message dh st :
  env_context env = _CONTEXT_NONE ->
  only_prints st
    (snd (notebook._display env port height print_message dh st)).
Proof.
  intros Hc. unfold notebook._display.
  apply only_prints_bind; [apply only_prints_select|].
  intros [info p] st1 _.
  apply only_prints_bind.
  - destruct print_message; [destruct info|]; try apply only_prints_refl.
    apply only_prints_bind; [apply only_prints_time_delta|].
    intros delta st2 _. apply only_prints_print.
  - intros _ st2 _. unfold bind, notebook._get_context, ret. rewrite Hc.
    apply only_prints_print.
Qed.

Lemma only_prints_announced env st :
  env_context env = _CONTEXT_NONE -> only_prints st (announced env st).
Proof.
  intros Hc. unfold announced, displays_after_banner, banner_event.
  rewrite Hc. split; [reflexivity|].
  exists [EvPrint "Launching TensorBoard..."]. split; reflexivity.
Qed.

(** [start] when the arguments cannot be split. *)
Lemma start_unsplit env args e st :
  env_shlex_split env args = Raise e ->
  notebook.start env args st = (Raise e, announced env st).
Proof.
  intros Hsplit.
  unfold notebook.start, announced, banner_event, displays_after_banner,
    notebook._get_context, notebook.shlex_split.
  unfold bind at 1. unfold ret at 1.
  destruct (env_context env);
    unfold bind, print, emit, ipython_display_handle, ret;
    cbn [get_all_calls now_calls displays out]; rewrite Hsplit;
    reflexivity.
Qed.

(** X8: [_get_context] reports a notebook only when [IPython] imports and
    its shell has a kernel.  In every other session, the interactive
    [ipython] shell included and whether or not [google.colab] imports,
    [start] and [_display] do nothing but print: no display is opened or
    updated, so [IPython.display] is never needed. *)
Theorem without_kernel_only_prints :
  forall found env,
    env_context env = notebook.context_of found ->
    notebook.IPython_importable found && match notebook.get_ipython found with
                                         | Some has_kernel => has_kernel
                                         | None => false
                                         end = false ->
    notebook.context_of found = _CONTEXT_NONE
    /\ (forall args st,
           only_prints st (snd (notebook.start env args st)))
    /\ (forall port height print_message dh st,
           only_prints st
             (snd (notebook._display env port height print_message dh st))).
Proof.
  intros found env Henv Hfound.
  assert (Hnone : notebook.context_of found = _CONTEXT_NONE).
  { unfold notebook.context_of.
    destruct (notebook.IPython_importable found); [|reflexivity].
    destruct (notebook.get_ipython found) as [[|]|];
      try reflexivity; discriminate. }
  assert (Hc : env_context env = _CONTEXT_NONE) by congruence.
  split; [exact Hnone | split].
  - intros args st.
    destruct (env_shlex_split env args) as [parsed|e] eqn:Hsplit.
    + rewrite (start_announces env args parsed st Hsplit).
      unfold banner_handle. rewrite Hc. cbv zeta.
      eapply only_prints_trans; [apply (only_prints_announced env st Hc)|].
      destruct (env_start env parsed).
      * apply only_prints_display, Hc.
      * apply only_prints_bind; [apply only_prints_time_delta|].
        intros delta st1 _.
        apply only_prints_bind; [apply only_prints_print|].
        intros _ st2 _. apply only_prints_display, Hc.
      * apply only_prints_print.
      * apply only_prints_print.
      * apply only_prints_refl.
      * destruct items as [|item [|item' items]]; apply only_prints_refl.
    + rewrite (start_unsplit env args e st Hsplit).
      apply only_prints_announced, Hc.
  - intros. apply only_prints_display, Hc.
Qed.

Lemma without_kernel_only_prints_witness :
  notebook.context_of (notebook.mkImports true (Some false) true)
  = _CONTEXT_NONE
  /\ (forall args st,
         only_prints st
           (snd (notebook.start
                   (sample_env _CONTEXT_NONE (manager.StartReused info_old)
                               [info_old]) args st)))
  /\ (forall port height print_message dh st,
         only_prints st
           (snd (notebook._display
                   (sample_env _CONTEXT_NONE (manager.StartReused info_old)
                               [info_old])
                   port height print_message dh st))).
Proof.
  apply (without_kernel_only_prints
           (notebook.mkImports true (Some false) true)
           (sample_env _CONTEXT_NONE (manager.StartReused info_old)
                       [info_old]));
    reflexivity.
Defined.

(** ** The reactions of [start], outcome by outcome *)

Lemma print_or_update_state handle message st :
  notebook.print_or_update handle message st
  = (Ok tt,
     mkState (get_all_calls st) (now_calls st) (displays st)
             (out st ++ [status_event handle message])).
Proof. destruct handle; reflexivity. Qed.

Lemma start_launched env st args parsed info :
  env_shlex_split env args = Ok parsed ->
  env_start env parsed = manager.StartLaunched info ->
  notebook.start env args st
  = notebook._display_fn (env_context env) (manager.port info) 600
      (banner_handle env st)
      (mkState (S (get_all_calls st)) (now_calls st)
               (displays_after_banner env st)
               (out st ++ [banner_event env st])).
Proof.
  intros Hsplit Hres.
  rewrite (start_announces env args parsed st Hsplit), Hres.
  cbv zeta. rewrite display_port_silent. reflexivity.
Qed.

Lemma start_reused env st args parsed info :
  env_shlex_split env args = Ok parsed ->
  env_start env parsed = manager.StartReused info ->
  notebook.start env args st
  = notebook._display_fn (env_context env) (manager.port info) 600 None
      (mkState (S (get_all_calls st)) (S (now_calls st))
               (displays_after_banner env st)
               (out st
                ++ [banner_event env st;
                    status_event (banner_handle env st)
                      (reusing_line (env_now env (now_calls st)) info)])).
Proof.
  intros Hsplit Hres.
  rewrite (start_announces env args parsed st Hsplit), Hres.
  cbv zeta. unfold bind at 1.
  unfold notebook._time_delta_from_info, notebook.now, bind at 1, ret.
  cbn [get_all_calls now_calls displays out announced].
  unfold bind at 1. rewrite print_or_update_state.
  cbn [get_all_calls now_calls displays out].
  rewrite display_port_silent.
  cbn [get_all_calls now_calls displays out].
  rewrite <- app_assoc. reflexivity.
Qed.

Lemma start_failed env st args parsed exit_code stdout stderr :
  env_shlex_split env args = Ok parsed ->
  env_start env parsed = manager.StartFailed exit_code stdout stderr ->
  notebook.start env args st
  = (Ok tt,
     mkState (get_all_calls st) (now_calls st) (displays_after_banner env st)
             (out st
              ++ [banner_event env st;
                  status_event (banner_handle env st)
                               (failed_line exit_code stdout stderr)])).
Proof.
  intros Hsplit Hres.
  rewrite (start_announces env args parsed st Hsplit), Hres.
  cbv zeta. rewrite print_or_update_state.
  cbn [get_all_calls now_calls displays out announced].
  rewrite <- app_assoc. reflexivity.
Qed.

Lemma start_timed_out env st args parsed pid :
  env_shlex_split env args = Ok parsed ->
  env_start env parsed = manager.StartTimedOut pid ->
  notebook.start env args st
  = (Ok tt,
     mkState (get_all_calls st) (now_calls st) (displays_after_banner env st)
             (out st
              ++ [banner_event env st;
                  status_event (banner_handle env st)
                               (timed_out_line pid)])).
Proof.
  intros Hsplit Hres.
  rewrite (start_announces env args parsed st Hsplit), Hres.
  cbv zeta. rewrite print_or_update_state.
  cbn [get_all_calls now_calls displays out announced].
  rewrite <- app_assoc. reflexivity.
Qed.

(** X9: after a fresh launch [start] writes no status line and does not
    read the clock; it queries discovery once and renders the new
    instance's port with height 600, whether or not discovery lists the
    instance.  At a terminal the address is printed after the
    announcement; in a notebook the frame is written into the
    announcement's own display; in Colab [NotImplementedError] is raised
    with the announcement left standing. *)
Theorem launched_renders_into_announcement :
  forall env st args parsed info,
    env_shlex_split env args = Ok parsed ->
    env_start env parsed = manager.StartLaunched info ->
    let st' events :=
      mkState (S (get_all_calls st)) (now_calls st)
              (displays_after_banner env st) (out st ++ events) in
    match env_context env with
    | _CONTEXT_NONE =>
        notebook.start env args st
        = (Ok tt,
           st' [EvPrint "Launching TensorBoard...";
                EvPrint ("Please navigate to " ++ url (manager.port info)
                         ++ " in a web browser.")])
    | _CONTEXT_IPYTHON =>
        notebook.start env args st
        = (Ok tt,
           st' [EvDisplay (Pretty "Launching TensorBoard...")
                          (Some (displays st));
                EvUpdate (displays st)
                         (IFrame (url (manager.port info)) 600 "100%")])
    | _CONTEXT_COLAB =>
        notebook.start env args st
        = (Raise NotImplementedError,
           st' [EvDisplay (Pretty "Launching TensorBoard...")
                          (Some (displays st))])
    end.
Proof.
  intros env st args parsed info Hsplit Hres st'.
  rewrite (start_launched env st args parsed info Hsplit Hres).
  unfold st', banner_handle, banner_event, displays_after_banner.
  destruct (env_context env);
    unfold notebook._display_fn, notebook._display_colab,
      notebook._display_ipython, notebook._display_cli, handle_update,
      print, emit, raise, url;
    cbn [get_all_calls now_calls displays out];
    rewrite <- ?app_assoc; reflexivity.
Qed.

Lemma launched_renders_into_announcement_witness :
  notebook.start
    (sample_env _CONTEXT_IPYTHON (manager.StartLaunched info_new) [])
    "--logdir /tmp/other" st0
  = (Ok tt,
     mkState 1 0 1
       [EvDisplay (Pretty "Launching TensorBoard...") (Some 0%nat);
        EvUpdate 0 (IFrame "http://localhost:6006" 600 "100%")]).
Proof.
  apply (launched_renders_into_announcement
           (sample_env _CONTEXT_IPYTHON (manager.StartLaunched info_new) [])
           st0 "--logdir /tmp/other" ["--logdir"; "/tmp/logs"] info_new);
    reflexivity.
Defined.

Lemma handle_content_app h a : forall b current,
  handle_content h (a ++ b) current
  = handle_content h b (handle_content h a current).
Proof.
  induction a as [|ev a IH]; intros b current; [reflexivity|].
  destruct ev as [line | obj [id|] | id obj]; simpl; apply IH.
Qed.

(** X10: in a notebook the display opened for "Launching TensorBoard..."
    ends up showing the outcome.  After a fresh launch it holds the frame;
    after a reuse it holds the status line, the frame going to a display
    of its own; after a failure or a timeout it holds the error line.
    The announcement remains exactly when [start] raises before it has an
    outcome to react to: when the arguments cannot be split, or when the
    supervisor's answer is none of the four result classes. *)
Theorem announcement_display_shows_outcome :
  forall env st args,
    env_context env = _CONTEXT_IPYTHON ->
    let events := out (snd (notebook.start env args st)) in
    let shown := handle_content (displays st) events None in
    match env_shlex_split env args with
    | Raise _ => shown = Some (Pretty "Launching TensorBoard...")
    | Ok parsed =>
        match env_start env parsed with
        | manager.StartLaunched info =>
            shown = Some (IFrame (url (manager.port info)) 600 "100%")
        | manager.StartReused info =>
            shown
            = Some (Pretty (reusing_line (env_now env (now_calls st)) info))
            /\ last events (EvPrint EmptyString)
               = EvDisplay (IFrame (url (manager.port info)) 600 "100%") None
        | manager.StartFailed exit_code stdout stderr =>
            shown = Some (Pretty (failed_line exit_code stdout stderr))
        | manager.StartTimedOut pid =>
            shown = Some (Pretty (timed_out_line pid))
        | manager.Unexpected _ =>
            shown = Some (Pretty "Launching TensorBoard...")
        | manager.UnexpectedTuple _ =>
            shown = Some (Pretty "Launching TensorBoard...")
        end
    end
    /\ (shown = Some (Pretty "Launching TensorBoard...")
        <-> (exists e, env_shlex_split env args = Raise e)
            \/ (exists parsed,
                   env_shlex_split env args = Ok parsed
                   /\ ((exists repr,
                           env_start env parsed = manager.Unexpected repr)
                       \/ (exists items,
                              env_start env parsed
                              = manager.UnexpectedTuple items)))).
Proof.
  intros env st args Hc events shown. subst shown events.
  assert (Hbanner : handle_content (displays st) (out (announced env st)) None
                    = Some (Pretty "Launching TensorBoard...")).
  { unfold announced, banner_event. rewrite Hc. cbn [out].
    rewrite handle_content_app. simpl. rewrite Nat.eqb_refl. reflexivity. }
  destruct (env_shlex_split env args) as [parsed|e] eqn:Hsplit.
  - destruct (env_start env parsed) eqn:Hres.
    + assert (H1 : handle_content (displays st)
                     (out (snd (notebook.start env args st))) None
                   = Some (IFrame (url (manager.port info)) 600 "100%")).
      { rewrite (start_launched env st args parsed _ Hsplit Hres).
        unfold banner_handle, banner_event, displays_after_banner.
        rewrite Hc. cbn. rewrite <- app_assoc, handle_content_app. simpl.
        rewrite Nat.eqb_refl. reflexivity. }
      rewrite H1. split; [reflexivity|]. split; [discriminate|].
      intros [[e He] | (p & Hp & [[r Hr] | [i Hi]])]; congruence.
    + assert (H1 : handle_content (displays st)
                     (out (snd (notebook.start env args st))) None
                   = Some (Pretty (reusing_line (env_now env (now_calls st))
                                                info))
                   /\ last (out (snd (notebook.start env args st)))
                           (EvPrint EmptyString)
                      = EvDisplay (IFrame (url (manager.port info)) 600
                                          "100%") None).
      { rewrite (start_reused env st args parsed _ Hsplit Hres).
        unfold banner_handle, banner_event, displays_after_banner.
        rewrite Hc. cbn. split.
        - rewrite <- app_assoc, handle_content_app. simpl.
          rewrite Nat.eqb_refl. reflexivity.
        - apply last_last. }
      split; [exact H1|]. rewrite (proj1 H1). split; [discriminate|].
      intros [[e He] | (p & Hp & [[r Hr] | [i Hi]])]; congruence.
    + assert (H1 : handle_content (displays st)
                     (out (snd (notebook.start env args st))) None
                   = Some (Pretty (failed_line exit_code stdout stderr))).
      { rewrite (start_failed env st args parsed _ _ _ Hsplit Hres).
        unfold banner_handle, banner_event. rewrite Hc. cbn [snd out].
        rewrite handle_content_app. simpl. rewrite Nat.eqb_refl.
        reflexivity. }
      rewrite H1. split; [reflexivity|]. split; [discriminate|].
      intros [[e He] | (p & Hp & [[r Hr] | [i Hi]])]; congruence.
    + assert (H1 : handle_content (displays st)
                     (out (snd (notebook.start env args st))) None
                   = Some (Pretty (timed_out_line pid))).
      { rewrite (start_timed_out env st args parsed _ Hsplit Hres).
        unfold banner_handle, banner_event. rewrite Hc. cbn [snd out].
        rewrite handle_content_app. simpl. rewrite Nat.eqb_refl.
        reflexivity. }
      rewrite H1. split; [reflexivity|]. split; [discriminate|].
      intros [[e He] | (p & Hp & [[r Hr] | [i Hi]])]; congruence.
    + assert (H1 : snd (notebook.start env args st) = announced env st).
      { rewrite (start_announces env args parsed st Hsplit), Hres.
        reflexivity. }
      rewrite H1, Hbanner. split; [reflexivity|].
      split; [|reflexivity]. intros _. right. exists parsed.
      split; [reflexivity|]. left. exists repr. exact Hres.
    + assert (H1 : snd (notebook.start env args st) = announced env st).
      { rewrite (start_announces env args parsed st Hsplit), Hres.
        destruct items as [|item [|item' items]]; reflexivity. }
      rewrite H1, Hbanner. split; [reflexivity|].
      split; [|reflexivity]. intros _. right. exists parsed.
      split; [reflexivity|]. right. exists items. exact Hres.
  - rewrite (start_unsplit env args e st Hsplit).
    cbn [snd]. rewrite Hbanner. split; [reflexivity|].
    split; [|reflexivity]. intros _. left. eexists. reflexivity.
Qed.

Lemma announcement_display_shows_outcome_witness :
  (handle_content 0
     (out (snd (notebook.start
                  (sample_env _CONTEXT_IPYTHON (manager.StartReused info_old)
                              [info_old])
                  "--logdir /tmp/logs" st0)))
     None
   = Some (Pretty (reusing_line t_now info_old))
   /\ last (out (snd (notebook.start
                        (sample_env _CONTEXT_IPYTHON
                                    (manager.StartReused info_old)
                                    [info_old])
                        "--logdir /tmp/logs" st0)))
           (EvPrint EmptyString)
      = EvDisplay (IFrame (url 6006) 600 "100%") None)
  /\ handle_content 0
       (out (snd (notebook.start
                    (mkEnv _CONTEXT_IPYTHON
                           (fun _ => Raise (ValueError "No closing quotation"))
                           (fun _ => manager.StartLaunched info_old)
                           (fun _ => [info_old]) (fun _ => t_now))
                    "--logdir 'oops" st0)))
       None
     = Some (Pretty "Launching TensorBoard...").
Proof.
  split.
  - apply (proj1 (announcement_display_shows_outcome
                    (sample_env _CONTEXT_IPYTHON
                                (manager.StartReused info_old) [info_old])
                    st0 "--logdir /tmp/logs" eq_refl)).
  - apply (proj1 (announcement_display_shows_outcome
                    (mkEnv _CONTEXT_IPYTHON
                           (fun _ => Raise (ValueError "No closing quotation"))
                           (fun _ => manager.StartLaunched info_old)
                           (fun _ => [info_old]) (fun _ => t_now))
                    st0 "--logdir 'oops" eq_refl)).
Defined.

(** X11: arguments that cannot be split make [start] fail with the error
    of the split, after the launch has been announced and before anything
    else: the supervisor's records are not read, no status follows, and in
    a notebook the announcement is what stays on display. *)
Theorem unsplittable_arguments_abort :
  forall env args e st,
    env_shlex_split env args = Raise e ->
    notebook.start env args st
    = (Raise e,
       mkState (get_all_calls st) (now_calls st)
               (displays_after_banner env st)
               (out st ++ [banner_event env st]))
    /\ (env_context env <> _CONTEXT_NONE ->
        handle_content (displays st)
                       (out (snd (notebook.start env args st))) None
        = Some (Pretty "Launching TensorBoard...")).
Proof.
  intros env args e st Hsplit.
  rewrite (start_unsplit env args e st Hsplit). split; [reflexivity|].
  intros Hc. unfold announced, banner_event. cbn [snd out].
  rewrite handle_content_app.
  destruct (env_context env); [| |congruence]; simpl;
    rewrite Nat.eqb_refl; reflexivity.
Qed.

Lemma unsplittable_arguments_abort_witness :
  notebook.start
    (mkEnv _CONTEXT_IPYTHON
           (fun _ => Raise (ValueError "No closing quotation"))
           (fun _ => manager.StartLaunched info_old) (fun _ => [info_old])
           (fun _ => t_now))
    "--logdir 'oops" st0
  = (Raise (ValueError "No closing quotation"),
     mkState 0 0 1
       [EvDisplay (Pretty "Launching TensorBoard...") (Some 0%nat)]).
Proof.
  apply (unsplittable_arguments_abort
           (mkEnv _CONTEXT_IPYTHON
                  (fun _ => Raise (ValueError "No closing quotation"))
                  (fun _ => manager.StartLaunched info_old)
                  (fun _ => [info_old]) (fun _ => t_now))
           "--logdir 'oops" (ValueError "No closing quotation") st0).
  reflexivity.
Defined.

(** X12: in Colab every launch that succeeds ends in
    [NotImplementedError]: a fresh launch right after the announcement, a
    reuse after its status line has replaced the announcement.  Failures
    and timeouts are reported there as anywhere else. *)
Theorem colab_start_not_implemented :
  forall env st args parsed,
    env_context env = _CONTEXT_COLAB ->
    env_shlex_split env args = Ok parsed ->
    let r := notebook.start env args st in
    match env_start env parsed with
    | manager.StartLaunched info =>
        fst r = Raise NotImplementedError
        /\ handle_content (displays st) (out (snd r)) None
           = Some (Pretty "Launching TensorBoard...")
    | manager.StartReused info =>
        fst r = Raise NotImplementedError
        /\ handle_content (displays st) (out (snd r)) None
           = Some (Pretty (reusing_line (env_now env (now_calls st)) info))
    | manager.StartFailed _ _ _ => fst r = Ok tt
    | manager.StartTimedOut _ => fst r = Ok tt
    | manager.Unexpected _ => exists message, fst r = Raise (TypeError message)
    | manager.UnexpectedTuple _ =>
        exists message, fst r = Raise (TypeError message)
    end.
Proof.
  intros env st args parsed Hc Hsplit r.
  destruct (env_start env parsed) eqn:Hres; subst r.
  - rewrite (start_launched env st args parsed _ Hsplit Hres).
    unfold banner_handle, banner_event, displays_after_banner.
    rewrite Hc. cbn. split; [reflexivity|].
    rewrite handle_content_app. simpl. rewrite Nat.eqb_refl. reflexivity.
  - rewrite (start_reused env st args parsed _ Hsplit Hres).
    unfold banner_handle, banner_event, displays_after_banner.
    rewrite Hc. cbn. split; [reflexivity|].
    rewrite handle_content_app. simpl. rewrite Nat.eqb_refl. reflexivity.
  - rewrite (start_failed env st args parsed _ _ _ Hsplit Hres). reflexivity.
  - rewrite (start_timed_out env st args parsed _ Hsplit Hres). reflexivity.
  - rewrite (start_announces env args parsed st Hsplit), Hres.
    eexists. reflexivity.
  - rewrite (start_announces env args parsed st Hsplit), Hres.
    destruct items as [|item [|item' items]]; eexists; reflexivity.
Qed.

Lemma colab_start_not_implemented_witness :
  fst (notebook.start
         (sample_env _CONTEXT_COLAB (manager.StartLaunched info_new)
                     [info_new])
         "--logdir /tmp/other" st0)
  = Raise NotImplementedError
  /\ handle_content 0
       (out (snd (notebook.start
                    (sample_env _CONTEXT_COLAB
                                (manager.StartLaunched info_new) [info_new])
                    "--logdir /tmp/other" st0)))
       None
     = Some (Pretty "Launching TensorBoard...").
Proof.
  apply (colab_start_not_implemented
           (sample_env _CONTEXT_COLAB (manager.StartLaunched info_new)
                       [info_new])
           st0 "--logdir /tmp/other" ["--logdir"; "/tmp/logs"]);
    reflexivity.
Defined.

(** X13: outside Colab, [start] on arguments that split and an outcome of
    one of the four classes (no other object, tuple or not) always returns
    normally.  In particular it
    never raises the "no known instances" error: the launched or reused
    port is rendered even when discovery lists nothing. *)
Theorem start_succeeds_outside_colab :
  forall env st args parsed,
    env_context env <> _CONTEXT_COLAB ->
    env_shlex_split env args = Ok parsed ->
    (forall repr, env_start env parsed <> manager.Unexpected repr) ->
    (forall items, env_start env parsed <> manager.UnexpectedTuple items) ->
    fst (notebook.start env args st) = Ok tt.
Proof.
  intros env st args parsed Hc Hsplit Hknown Hknown'.
  destruct (env_start env parsed) eqn:Hres.
  - rewrite (start_launched env st args parsed _ Hsplit Hres).
    unfold banner_handle.
    destruct (env_context env); [congruence| |]; reflexivity.
  - rewrite (start_reused env st args parsed _ Hsplit Hres).
    destruct (env_context env); [congruence| |]; reflexivity.
  - rewrite (start_failed env st args parsed _ _ _ Hsplit Hres). reflexivity.
  - rewrite (start_timed_out env st args parsed _ Hsplit Hres). reflexivity.
  - exfalso. exact (Hknown _ eq_refl).
  - exfalso. exact (Hknown' _ eq_refl).
Qed.

Lemma start_succeeds_outside_colab_witness :
  fst (notebook.start
         (sample_env _CONTEXT_NONE (manager.StartLaunched info_new) [])
         "--logdir /tmp/other" st0)
  = Ok tt.
Proof.
  apply (start_succeeds_outside_colab
           (sample_env _CONTEXT_NONE (manager.StartLaunched info_new) [])
           st0 "--logdir /tmp/other" ["--logdir"; "/tmp/logs"]);
    [discriminate | reflexivity | discriminate | discriminate].
Defined.

(** ** Elapsed time and captured streams *)

Lemma str_of_parts q r :
  0 <= r < 86400 ->
  datetime.str (datetime.mk_delta q r 0)
  = (if q =? 0 then EmptyString
     else pystr.of_int q ++ " day"
          ++ (if Z.abs q =? 1 then EmptyString else "s") ++ ", ")
    ++ clock_time r.
Proof.
  intros Hr. unfold datetime.str, clock_time.
  cbn [datetime.days datetime.seconds datetime.microseconds].
  change (0 =? 0) with true. cbv iota.
  replace (r / 60 / 60) with (r / 3600)
    by (rewrite Z.div_div by lia; reflexivity).
  destruct (q =? 0); [reflexivity|].
  rewrite !append_assoc. reflexivity.
Qed.

(** X14: how the elapsed time reads, by the whole-second distance [d]
    from the start to now.  Within the first day it is the bare clock time
    [H:MM:SS]; from one day on it is preceded by the number of days, "1
    day" in the singular; and when the record's start lies up to a day in
    the future of the clock it reads "-1 day, " followed by the clock time
    of [d + 86400], Python's way of writing a negative duration. *)
Theorem elapsed_time_reading :
  forall env st info,
    let d := datetime.whole_seconds (env_now env (now_calls st))
             - datetime.whole_seconds (manager.start_time info) in
    let text := fst (notebook._time_delta_from_info env info st) in
    (0 <= d < 86400 -> text = Ok (clock_time d))
    /\ (86400 <= d ->
        text = Ok (pystr.of_int (d / 86400)
                   ++ (if d <? 172800 then " day, " else " days, ")
                   ++ clock_time (d mod 86400)))
    /\ (-86400 <= d < 0 ->
        text = Ok ("-1 day, " ++ clock_time (d + 86400))).
Proof.
  intros env st info d text.
  assert (Htext : text
    = Ok (datetime.str (datetime.mk_delta (d / 86400) (d mod 86400) 0))).
  { subst text d. unfold notebook._time_delta_from_info, notebook.now, bind,
      ret. cbn [fst]. rewrite sub_whole_seconds. reflexivity. }
  assert (Hr : 0 <= d mod 86400 < 86400) by (apply Z.mod_pos_bound; lia).
  rewrite Htext, (str_of_parts _ _ Hr).
  split; [|split]; intros Hd.
  - rewrite (Z.div_small d 86400), (Z.mod_small d 86400) by lia.
    reflexivity.
  - assert (Hq : 1 <= d / 86400) by (apply Z.div_le_lower_bound; lia).
    destruct (d / 86400 =? 0) eqn:E0; [apply Z.eqb_eq in E0; lia|].
    destruct (d <? 172800) eqn:E2.
    + apply Z.ltb_lt in E2.
      assert (d / 86400 = 1).
      { symmetry. apply (Z.div_unique d 86400 1 (d - 86400)); lia. }
      replace (d / 86400) with 1. reflexivity.
    + apply Z.ltb_ge in E2.
      assert (2 <= d / 86400) by (apply Z.div_le_lower_bound; lia).
      destruct (Z.abs (d / 86400) =? 1) eqn:E1; [apply Z.eqb_eq in E1; lia|].
      rewrite !append_assoc. reflexivity.
  - assert (Hq : d / 86400 = -1).
    { symmetry. apply (Z.div_unique d 86400 (-1) (d + 86400)); lia. }
    assert (Hm : d mod 86400 = d + 86400).
    { symmetry. apply (Z.mod_unique d 86400 (-1) (d + 86400)); lia. }
    rewrite Hq, Hm. reflexivity.
Qed.

Lemma elapsed_time_reading_witness :
  fst (notebook._time_delta_from_info
         (sample_env _CONTEXT_NONE (manager.Unexpected "None") [])
         (manager.mkInfo 6006 77 (datetime.mk 2019 3 10 12 0 1 0)
                         EmptyString "/tmp/logs")
         st0)
  = Ok ("-1 day, " ++ clock_time (-1 + 86400))
  /\ fst (notebook._time_delta_from_info
            (sample_env _CONTEXT_NONE (manager.Unexpected "None") [])
            info_new st0)
     = Ok (clock_time 9000)
  /\ fst (notebook._time_delta_from_info
            (sample_env _CONTEXT_NONE (manager.Unexpected "None") [])
            info_old st0)
     = Ok (pystr.of_int (175738 / 86400) ++ " days, "
           ++ clock_time (175738 mod 86400)).
Proof.
  split; [|split].
  - apply (elapsed_time_reading
             (sample_env _CONTEXT_NONE (manager.Unexpected "None") [])
             st0
             (manager.mkInfo 6006 77 (datetime.mk 2019 3 10 12 0 1 0)
                             EmptyString "/tmp/logs")).
    vm_compute. split; [discriminate | reflexivity].
  - apply (elapsed_time_reading
             (sample_env _CONTEXT_NONE (manager.Unexpected "None") [])
             st0 info_new).
    vm_compute. split; [discriminate | reflexivity].
  - apply (elapsed_time_reading
             (sample_env _CONTEXT_NONE (manager.Unexpected "None") [])
             st0 info_old).
    vm_compute. discriminate.
Defined.

Example elapsed_time_examples :
  clock_time (-1 + 86400) = "23:59:59"
  /\ clock_time 9000 = "2:30:00"
  /\ elapsed t_now (datetime.mk 2019 3 10 12 0 1 0) = "-1 day, 23:59:59"
  /\ elapsed t_now (datetime.mk 2019 3 9 12 0 0 0) = "1 day, 0:00:00".
Proof. repeat split; vm_compute; reflexivity. Qed.

Lemma isspace_cases ch :
  pystr.isspace ch = true -> In ch (map pystr.utf8 pystr.whitespace).
Proof.
  unfold pystr.isspace. intros H. apply existsb_exists in H.
  destruct H as (cp & Hcp & Heq). apply String.eqb_eq in Heq. subst ch.
  apply in_map. exact Hcp.
Qed.

(** A whitespace character at the front is stripped, whatever follows. *)
Lemma lstrip_whitespace ch rest :
  pystr.isspace ch = true -> pystr.lstrip (ch ++ rest) = pystr.lstrip rest.
Proof.
  intros H. apply isspace_cases in H. vm_compute in H.
  repeat (destruct H as [<- | H]; [reflexivity|]). contradiction.
Qed.

Lemma isspace_nonempty ch :
  pystr.isspace ch = true -> pystr.truthy ch = true.
Proof. destruct ch; [discriminate | reflexivity]. Qed.

Lemma lstrip_join chars :
  Forall (fun ch => pystr.isspace ch = true) chars ->
  pystr.lstrip (join chars) = EmptyString.
Proof.
  induction 1 as [|ch chars Hch _ IH]; [reflexivity|].
  cbn [join fold_right]. rewrite (lstrip_whitespace _ _ Hch). exact IH.
Qed.

(** X15: a captured stream that is not empty and consists of whitespace
    characters only (those of Python 3's [str], U+00A0 and U+2028 among
    them) is stripped to nothing, yet the error message of a failed launch
    still gives it its heading, with nothing underneath: only the empty
    string suppresses a stream. *)
Theorem blank_stream_keeps_heading :
  forall name chars,
    chars <> [] ->
    Forall (fun ch => pystr.isspace ch = true) chars ->
    pystr.strip (join chars) = EmptyString
    /\ notebook.format_stream name (Some (join chars))
       = pystr.nl ++ "Contents of " ++ name ++ ":" ++ pystr.nl
    /\ notebook.format_stream name (Some (join chars))
       <> notebook.format_stream name (Some EmptyString).
Proof.
  intros name chars Hne Hall.
  assert (Hstrip : pystr.strip (join chars) = EmptyString).
  { unfold pystr.strip. rewrite (lstrip_join _ Hall). reflexivity. }
  assert (H : notebook.format_stream name (Some (join chars))
              = pystr.nl ++ "Contents of " ++ name ++ ":" ++ pystr.nl).
  { destruct chars as [|ch chars]; [congruence|].
    inversion Hall as [|? ? Hch _]; subst.
    destruct (join (ch :: chars)) as [|c value] eqn:E.
    - cbn [join fold_right] in E. destruct ch; [discriminate Hch|].
      discriminate E.
    - change (notebook.format_stream name (Some (String c value)))
        with (pystr.nl ++ "Contents of " ++ name ++ ":" ++ pystr.nl
              ++ pystr.strip (String c value)).
      rewrite Hstrip. reflexivity. }
  split; [exact Hstrip | split; [exact H|]]. rewrite H. discriminate.
Qed.

Lemma blank_stream_keeps_heading_witness :
  pystr.strip (join [" "; pystr.utf8 8232; pystr.nl; pystr.utf8 160])
  = EmptyString
  /\ notebook.format_stream "stdout"
       (Some (join [" "; pystr.utf8 8232; pystr.nl; pystr.utf8 160]))
     = pystr.nl ++ "Contents of " ++ "stdout" ++ ":" ++ pystr.nl
  /\ notebook.format_stream "stdout"
       (Some (join [" "; pystr.utf8 8232; pystr.nl; pystr.utf8 160]))
     <> notebook.format_stream "stdout" (Some EmptyString).
Proof.
  apply (blank_stream_keeps_heading
           "stdout" [" "; pystr.utf8 8232; pystr.nl; pystr.utf8 160]);
    [discriminate | repeat constructor].
Defined.

Example strip_examples :
  pystr.strip (pystr.utf8 160 ++ " boom" ++ pystr.utf8 8232 ++ pystr.nl)
  = "boom"
  /\ pystr.strip (pystr.utf8 12288 ++ pystr.utf8 233 ++ pystr.utf8 133)
     = pystr.utf8 233
  /\ pystr.strip ("a" ++ pystr.utf8 8232 ++ "b") = "a" ++ pystr.utf8 8232 ++ "b"
  /\ pystr.utf8 8232
     = String (ascii_of_nat 226)
         (String (ascii_of_nat 128) (String (ascii_of_nat 168) EmptyString))
  /\ pystr.isspace (pystr.utf8 8203) = false.
Proof. repeat split; vm_compute; reflexivity. Qed.

(** ** The IPython extension *)

(** X16: loading the extension makes the line magic [tensorboard] run
    [start] on its line, whatever was registered under that name before,
    and leaves every other magic of the shell as it was. *)
Theorem tensorboard_magic_runs_start :
  forall env ipython,
    (exists fn,
        find_magic (notebook.load_ipython_extension env ipython)
                   "line" "tensorboard" = Some fn
        /\ forall line st, fn line st = notebook.start env line st)
    /\ (forall magic_kind magic_name,
           (String.eqb magic_kind "line"
            && String.eqb magic_name "tensorboard")%bool = false ->
           find_magic (notebook.load_ipython_extension env ipython)
                      magic_kind magic_name
           = find_magic ipython magic_kind magic_name).
Proof.
  intros env ipython. split.
  - exists (notebook._start_magic env). split; reflexivity.
  - intros magic_kind magic_name Hother.
    unfold notebook.load_ipython_extension, notebook._register_magics,
      notebook.register_magic_function.
    cbn [find_magic].
    rewrite (String.eqb_sym "line" magic_kind),
      (String.eqb_sym "tensorboard" magic_name), Hother.
    reflexivity.
Qed.

Lemma tensorboard_magic_runs_start_witness :
  find_magic
    (notebook.load_ipython_extension
       (sample_env _CONTEXT_IPYTHON (manager.Unexpected "None") [])
       [("line", "tensorboard", fun _ => raise NotImplementedError);
        ("cell", "tensorboard", fun _ => ret tt)])
    "cell" "tensorboard"
  = find_magic
      [("line", "tensorboard", fun _ => raise NotImplementedError);
       ("cell", "tensorboard", fun _ => ret tt)]
      "cell" "tensorboard".
Proof.
  apply (proj2 (tensorboard_magic_runs_start
                  (sample_env _CONTEXT_IPYTHON (manager.Unexpected "None") [])
                  [("line", "tensorboard", fun _ => raise NotImplementedError);
                   ("cell", "tensorboard", fun _ => ret tt)])).
  reflexivity.
Defined.

(** ** [display] without a port *)

(** X17: with at least one known instance and discovery answering alike
    to both queries, [display()] prints the line describing a most
    recently started instance and renders that instance's port, with the
    given height or 600, in a display of its own. *)
Theorem display_without_port_shows_most_recent :
  forall env st height infos,
    infos <> [] ->
    env_get_all env (get_all_calls st) = infos ->
    env_get_all env (S (get_all_calls st)) = infos ->
    exists info,
      In info infos
      /\ (forall i, In i infos ->
            datetime.leb (manager.start_time i) (manager.start_time info)
            = true)
      /\ notebook.display env None height st
         = notebook._display_fn (env_context env) (manager.port info)
             (height_or_default height) None
             (mkState (S (S (get_all_calls st))) (S (now_calls st))
                      (displays st)
                      (out st
                       ++ [EvPrint (selecting_line
                                      (env_now env (now_calls st)) info)])).
Proof.
  intros env st height infos Hne H1 H2.
  destruct (most_recent_spec infos Hne)
    as (info & pre & post & Hmax & Hsplit & Hall & _).
  exists info. split; [rewrite Hsplit; apply in_elt | split; [exact Hall|]].
  assert (Hsel : notebook._display_select env None st
                 = (Ok (Some info, manager.port info),
                    mkState (S (S (get_all_calls st))) (now_calls st)
                            (displays st) (out st))).
  { unfold notebook._display_select, notebook.get_all, bind. rewrite H1.
    destruct infos as [|i0 rest]; [congruence|].
    cbn [get_all_calls now_calls displays out]. rewrite H2, Hmax.
    reflexivity. }
  unfold notebook.display.
  rewrite (display_announcing env None height None st _ _ _ Hsel).
  reflexivity.
Qed.

Lemma display_without_port_shows_most_recent_witness :
  exists info,
    In info [info_old; info_new; info_mid]
    /\ (forall i, In i [info_old; info_new; info_mid] ->
          datetime.leb (manager.start_time i) (manager.start_time info)
          = true)
    /\ notebook.display
         (sample_env _CONTEXT_NONE (manager.Unexpected "None")
                     [info_old; info_new; info_mid]) None None st0
       = notebook._display_fn _CONTEXT_NONE (manager.port info) 600 None
           (mkState 2 1 0 [EvPrint (selecting_line t_now info)]).
Proof.
  apply (display_without_port_shows_most_recent
           (sample_env _CONTEXT_NONE (manager.Unexpected "None")
                       [info_old; info_new; info_mid])
           st0 None [info_old; info_new; info_mid]);
    [discriminate | reflexivity | reflexivity].
Defined.
